(** * Flipper Zero pinout generator

    A shallow embedding of [pinout_generator.py]: the pin catalog and the
    connection profiles built by [PinoutGenerator.__init__], the renderers
    [generate_ascii_pinout], [generate_connection_diagram],
    [generate_full_pinout_reference], the lookup [get_pin_info] and the
    command-line entry point [main].

    A Python [str] is held as the UTF-8 encoding of its code points, so the
    box-drawing characters of the source appear as they are written there.
    Padding in Python counts code points, hence [PyStr.len] below.

    The interpreter is a 64-bit CPython 3.11, whose largest index is
    2^63 - 1. A width of 2^63 or more asks for a text that no machine can
    hold and is outside the model, as are the limits of memory; what a
    negative width does is modelled for every integer. The interpreter
    writes out no integer of more than 4300 digits ([int_str]); a catalog
    or a profile other than the ones [__init__] builds is taken to hold pin
    indices within that limit.

    The standard output of the script is a parameter: what its [write]
    makes of a piece of text, which it takes or refuses with a
    [UnicodeEncodeError] when its encoding has no bytes for it. [main] is
    the script on a standard output that takes every text. Errors of the
    operating system (a closed pipe, a full disk) are outside the model.

    Case mapping, [repr] and white space of Python follow the Unicode
    tables. The entry points take these functions of Python as parameters
    ([main_with], [Agent.loop_with]); [PyStr.lower], [PyStr.repr] and
    [Agent.strip] are what they are on ASCII strings, and [main] and
    [Agent.loop] are the instances at these, used where the input is
    ASCII. *)

From Stdlib Require Import ZArith List Bool Ascii String Lia DecimalString.
From Stdlib Require DecimalPos DecimalZ.
Import ListNotations.
Local Open Scope string_scope.

(** ** Python string operations *)

Module PyStr.

Definition line_feed : ascii := ascii_of_nat 10.

(** The line feed character as a string. *)
Definition nl : string := String line_feed "".

(** A UTF-8 continuation byte (10xxxxxx) does not start a code point. *)
Definition is_continuation (c : ascii) : bool :=
  let n := nat_of_ascii c in (128 <=? n)%nat && (n <? 192)%nat.

(** [len(s)]: the number of code points. *)
Fixpoint len (s : string) : nat :=
  match s with
  | EmptyString => 0
  | String c r => if is_continuation c then len r else S (len r)
  end.

(** [s * n] *)
Fixpoint replicate (n : nat) (s : string) : string :=
  match n with
  | O => ""
  | S m => s ++ replicate m s
  end.

Definition spaces (n : nat) : string := replicate n " ".

(** [s.ljust(w)] and the format spec [:<w]; never truncates. *)
Definition ljust (w : nat) (s : string) : string :=
  s ++ spaces (w - len s).

(** The format spec [:>w], the default alignment of numbers. *)
Definition rjust (w : nat) (s : string) : string :=
  spaces (w - len s) ++ s.

(** The format spec [:^w]: the odd space goes to the right. *)
Definition format_center (w : nat) (s : string) : string :=
  let pad := w - len s in
  let left := Nat.div2 pad in
  spaces left ++ s ++ spaces (pad - left).

(** [s.center(w)]: CPython puts the odd space to the left when both the
    padding and the width are odd. *)
Definition center (w : nat) (s : string) : string :=
  let pad := w - len s in
  let left := Nat.div2 pad + (if Nat.odd pad && Nat.odd w then 1 else 0) in
  spaces left ++ s ++ spaces (pad - left).

(** [sep.join(parts)] *)
Fixpoint join (sep : string) (parts : list string) : string :=
  match parts with
  | [] => ""
  | [x] => x
  | x :: rest => x ++ sep ++ join sep rest
  end.

Definition is_ascii_upper (c : ascii) : bool :=
  let n := nat_of_ascii c in (65 <=? n)%nat && (n <=? 90)%nat.

Definition is_ascii_lower (c : ascii) : bool :=
  let n := nat_of_ascii c in (97 <=? n)%nat && (n <=? 122)%nat.

Definition lower_char (c : ascii) : ascii :=
  if is_ascii_upper c then ascii_of_nat (nat_of_ascii c + 32) else c.

Definition upper_char (c : ascii) : ascii :=
  if is_ascii_lower c then ascii_of_nat (nat_of_ascii c - 32) else c.

Fixpoint map_chars (f : ascii -> ascii) (s : string) : string :=
  match s with
  | EmptyString => EmptyString
  | String c r => String (f c) (map_chars f r)
  end.

(** [s.lower()] and [s.upper()] for a string of ASCII characters. Beyond
    ASCII Python follows the Unicode tables, which these functions do not:
    they are used on ASCII strings only, and [main_with] and
    [Agent.loop_with] take Python's own function as a parameter. *)
Definition lower (s : string) : string := map_chars lower_char s.
Definition upper (s : string) : string := map_chars upper_char s.

(** [str(n)] for an integer. *)
Definition of_Z (n : Z) : string := NilZero.string_of_int (Z.to_int n).

(** [needle in hay] *)
Fixpoint contains (needle hay : string) : bool :=
  prefix needle hay ||
  match hay with
  | EmptyString => false
  | String _ rest => contains needle rest
  end.

(** Splitting a text at its line feeds. *)
Fixpoint split_lines_aux (cur : string) (s : string) : list string :=
  match s with
  | EmptyString => [cur]
  | String c r =>
      if Ascii.eqb c line_feed
      then cur :: split_lines_aux "" r
      else split_lines_aux (cur ++ String c "") r
  end.

Definition split_lines (s : string) : list string := split_lines_aux "" s.

Fixpoint any_char (p : ascii -> bool) (s : string) : bool :=
  match s with
  | EmptyString => false
  | String c r => p c || any_char p r
  end.

Definition backslash : ascii := ascii_of_nat 92.
Definition squote : ascii := ascii_of_nat 39.
Definition dquote : ascii := ascii_of_nat 34.

Definition hex_digit (n : nat) : ascii :=
  if (n <? 10)%nat then ascii_of_nat (48 + n) else ascii_of_nat (87 + n).

Definition repr_char (quote : ascii) (c : ascii) : string :=
  let n := nat_of_ascii c in
  if Ascii.eqb c quote || Ascii.eqb c backslash then String backslash (String c "")
  else if (n =? 9)%nat then String backslash "t"
  else if (n =? 10)%nat then String backslash "n"
  else if (n =? 13)%nat then String backslash "r"
  else if (n <? 32)%nat || (n =? 127)%nat
       then String backslash
              (String "x" (String (hex_digit (n / 16)) (String (hex_digit (n mod 16)) "")))
  else String c "".

Fixpoint repr_body (quote : ascii) (s : string) : string :=
  match s with
  | EmptyString => ""
  | String c r => repr_char quote c ++ repr_body quote r
  end.

(** Every byte is below 128: no code point beyond ASCII. *)
Definition is_ascii (s : string) : bool :=
  negb (any_char (fun c => (128 <=? nat_of_ascii c)%nat) s).

(** [repr(s)] for a string of ASCII characters: single quotes unless the
    string holds a single quote and no double quote; backslash, the chosen
    quote, tab, line feed and carriage return are escaped with a backslash,
    other control characters in hexadecimal. Beyond ASCII Python escapes
    what the Unicode tables call unprintable, which this function does not:
    it is used on ASCII strings only, and [main_with] takes Python's own
    function as a parameter. *)
Definition repr (s : string) : string :=
  let quote :=
    if any_char (Ascii.eqb squote) s && negb (any_char (Ascii.eqb dquote) s)
    then dquote else squote in
  String quote (repr_body quote s ++ String quote "").

End PyStr.

(** ** Exceptions *)

(** The exception classes that the code of the module can raise, each with
    its message. The handler of [main] catches [ValueError] alone; the other
    two are not among its subclasses. *)
Inductive exn : Type :=
| ValueError (msg : string)
| UnicodeEncodeError (msg : string)
| TypeError (msg : string)
| OverflowError (msg : string).

Inductive result (A : Type) : Type :=
| Ok (a : A)
| Raise (e : exn).

Arguments Ok {A} a.
Arguments Raise {A} e.

Definition bind {A B : Type} (m : result A) (f : A -> result B) : result B :=
  match m with
  | Ok a => f a
  | Raise e => Raise e
  end.

Notation "x <- m ;; k" := (bind m (fun x => k))
  (at level 61, m at next level, right associativity).

(** The replacement field [{s:^{width}}] of an f-string. The format spec is
    the caret followed by [str(width)]. For a negative width the minus sign
    is read as a sign option and the digits after it as the width: digits
    that exceed the largest index end the parsing of the spec, otherwise the
    string formatter refuses the sign. A width of zero pads nothing. *)
Definition format_center_field (s : string) (width : Z) : result string :=
  if (width <? 0)%Z
  then
    if (width <=? - 2 ^ 63)%Z
    then Raise (ValueError "Too many decimal digits in format string")
    else Raise (ValueError "Sign not allowed in string format specifier")
  else Ok (PyStr.format_center (Z.to_nat width) s).

(** [s * n] for an integer [n]: a count below the least index is refused,
    any other negative count gives the empty string. *)
Definition str_repeat (s : string) (n : Z) : result string :=
  if (n <? - 2 ^ 63)%Z
  then Raise (OverflowError "cannot fit 'int' into an index-sized integer")
  else Ok (PyStr.replicate (Z.to_nat n) s).

(** ** Data model *)

Inductive ConnectionType : Type := UART | FTDI | DIRECT | USB.

(** The [.value] of an enum member. *)
Definition value (c : ConnectionType) : string :=
  match c with
  | UART => "uart"
  | FTDI => "ftdi"
  | DIRECT => "direct"
  | USB => "usb"
  end.

(** The [.name] of an enum member. *)
Definition name (c : ConnectionType) : string :=
  match c with
  | UART => "UART"
  | FTDI => "FTDI"
  | DIRECT => "DIRECT"
  | USB => "USB"
  end.

(** Iterating over the enum class yields its members in definition order. *)
Definition ConnectionType_members : list ConnectionType :=
  [UART; FTDI; DIRECT; USB].

Definition ConnectionType_eqb (a b : ConnectionType) : bool :=
  match a, b with
  | UART, UART | FTDI, FTDI | DIRECT, DIRECT | USB, USB => true
  | _, _ => false
  end.

(** [ConnectionType(v)]: lookup of a member by value. The message of the
    failure shows [repr(v)]; [repr] is Python's. *)
Definition ConnectionType_of_value_with (repr : string -> string) (v : string)
  : result ConnectionType :=
  match find (fun c => String.eqb (value c) v) ConnectionType_members with
  | Some c => Ok c
  | None => Raise (ValueError (repr v ++ " is not a valid ConnectionType"))
  end.

(** A key of a [pins] dictionary: a physical pin index or a logical name. *)
Inductive pin_ref : Type :=
| PinInt (n : Z)
| PinName (s : string).

(** One entry of [connection_configs]. A dictionary keeps insertion order and
    [.items()] walks it in that order, so [pins] is an association list. The
    optional keys are the ones the renderer tests with [in]. *)
Record config : Type := {
  pins : list (pin_ref * string);
  description : string;
  baudrate : option string;
  voltage : option string;
  protocol : option string;
  note : option string
}.

Record PinoutGenerator : Type := {
  flipper_gpio_pins : list (Z * string);
  connection_configs : list (ConnectionType * config)
}.

(** [d.get(k)] *)
Fixpoint dict_get {K V : Type} (eqb : K -> K -> bool) (d : list (K * V)) (k : K)
  : option V :=
  match d with
  | [] => None
  | (k', v) :: rest => if eqb k' k then Some v else dict_get eqb rest k
  end.

(** [d.get(k, default)] *)
Definition dict_get_default {K V : Type} (eqb : K -> K -> bool)
  (d : list (K * V)) (k : K) (default : V) : V :=
  match dict_get eqb d k with
  | Some v => v
  | None => default
  end.

(** [PinoutGenerator.__init__] *)
Definition __init__ : PinoutGenerator := {|
  flipper_gpio_pins := [
    (1, "VCC (3.3V)");
    (2, "PA7 (SPI_MOSI)");
    (3, "PA6 (SPI_MISO)");
    (4, "PA4 (SPI_SCK)");
    (5, "PB3 (SPI_CS)");
    (6, "PB2 (USART_TX)");
    (7, "PC3 (USART_RX)");
    (8, "PC1 (GPIO)");
    (9, "PC0 (GPIO)");
    (10, "PB8 (I2C_SCL)");
    (11, "PB9 (I2C_SDA)");
    (12, "PA15 (GPIO)");
    (13, "PA14 (SWCLK)");
    (14, "PA13 (SWDIO)");
    (15, "RESET");
    (16, "GND");
    (17, "3V3 (Power Out)");
    (18, "5V (USB Power)")
  ]%Z;
  connection_configs := [
    (UART, {|
       pins := [(PinInt 6, "TX"); (PinInt 7, "RX"); (PinInt 1, "VCC"); (PinInt 16, "GND")];
       description := "Standard UART Verbindung";
       baudrate := Some "115200"; voltage := None; protocol := None; note := None |});
    (FTDI, {|
       pins := [(PinInt 6, "TXD"); (PinInt 7, "RXD"); (PinInt 1, "VCC"); (PinInt 16, "GND")];
       description := "FTDI USB-Serial Adapter";
       baudrate := None; voltage := Some "3.3V"; protocol := None; note := None |});
    (DIRECT, {|
       pins := [(PinInt 8, "GPIO1"); (PinInt 9, "GPIO2"); (PinInt 12, "GPIO3");
                (PinInt 1, "VCC"); (PinInt 16, "GND")];
       description := "Direkte GPIO Verbindung";
       baudrate := None; voltage := None; protocol := None;
       note := Some "Für custom Hardware" |});
    (USB, {|
       pins := [(PinInt 18, "5V"); (PinInt 16, "GND");
                (PinName "USB_D+", "Data+"); (PinName "USB_D-", "Data-")];
       description := "USB Verbindung";
       baudrate := None; voltage := None;
       protocol := Some "USB 2.0 Full Speed"; note := None |})
  ]
|}.

(** A hashable value a caller may hand over where a [ConnectionType] is
    expected: an enum member, a string, an integer or [None]. A string is
    never equal to an enum member, not even to one whose value it is. *)
Inductive py_value : Type :=
| VKind (k : ConnectionType)
| VStr (s : string)
| VInt (n : Z)
| VNone.

(** What a caller may hand over at all: a hashable value, or an object of an
    unhashable type (a list, a dictionary, a set), of which the name of the
    type is all that the code gets to see. *)
Inductive argument : Type :=
| Hashable (v : py_value)
| Unhashable (type_name : string).

Coercion Hashable : py_value >-> argument.

(** [str(n)] for an integer: the interpreter refuses to write out more
    than 4300 digits. *)
Definition int_str (n : Z) : result string :=
  if (10 ^ 4300 <=? Z.abs n)%Z
  then Raise (ValueError "Exceeds the limit (4300 digits) for integer string conversion; use sys.set_int_max_str_digits() to increase the limit")
  else Ok (PyStr.of_Z n).

(** [str(v)], as an f-string interpolates it. *)
Definition py_str (v : py_value) : result string :=
  match v with
  | VKind k => Ok ("ConnectionType." ++ name k)
  | VStr s => Ok s
  | VInt n => int_str n
  | VNone => Ok "None"
  end.

(** [self.connection_configs.get(connection_type)] for a key that can be
    hashed. *)
Definition configs_get (self : PinoutGenerator) (connection_type : py_value)
  : option (ConnectionType * config) :=
  match connection_type with
  | VKind k =>
      match dict_get ConnectionType_eqb (connection_configs self) k with
      | Some c => Some (k, c)
      | None => None
      end
  | _ => None
  end.

(** [raise ValueError(f"Unbekannter Verbindungstyp: {connection_type}")]:
    the message is built first. *)
Definition unknown_connection_type {A : Type} (connection_type : py_value)
  : result A :=
  shown <- py_str connection_type ;;
  Raise (ValueError ("Unbekannter Verbindungstyp: " ++ shown)).

(** What the lookup of a dictionary raises when its key cannot be hashed. *)
Definition unhashable {A : Type} (type_name : string) : result A :=
  Raise (TypeError ("unhashable type: '" ++ type_name ++ "'")).

(** ** Renderers *)

(** The static picture of the GPIO header, lines 88 to 94. *)
Definition gpio_header_art : list string := [
  "║                    Flipper Zero GPIO                    ║";
  "║    ┌─────────────────────────────────────────────┐    ║";
  "║    │  1  3  5  7  9 11 13 15 17              │    ║";
  "║    │  o  o  o  o  o  o  o  o  o               │    ║";
  "║    │  o  o  o  o  o  o  o  o  o               │    ║";
  "║    │  2  4  6  8 10 12 14 16 18              │    ║";
  "║    └─────────────────────────────────────────────┘    ║"
].

(** The body of the loop over [config["pins"].items()]. *)
Definition pin_line (gpio : list (Z * string)) (entry : pin_ref * string)
  : string :=
  let (pin, function) := entry in
  match pin with
  | PinInt n =>
      let pin_desc := dict_get_default Z.eqb gpio n "Unknown" in
      "║ Pin " ++ PyStr.rjust 2 (PyStr.of_Z n) ++ ": " ++ PyStr.ljust 10 function
        ++ " → " ++ PyStr.ljust 25 pin_desc ++ " ║"
  | PinName s =>
      "║ " ++ s ++ ": " ++ PyStr.ljust 35 function ++ " ║"
  end.

Definition opt_line (field : option string) (render : string -> string)
  : list string :=
  match field with
  | Some v => [render v]
  | None => []
  end.

(** The four tests [if "baudrate" in config: ...] in source order. *)
Definition info_lines (c : config) : list string :=
  opt_line (baudrate c) (fun v => "║ Baudrate: " ++ PyStr.ljust 46 v ++ " ║")
  ++ opt_line (voltage c) (fun v => "║ Spannung: " ++ PyStr.ljust 46 v ++ " ║")
  ++ opt_line (protocol c) (fun v => "║ Protokoll: " ++ PyStr.ljust 45 v ++ " ║")
  ++ opt_line (note c) (fun v => "║ Hinweis: " ++ PyStr.ljust 47 v ++ " ║").

(** The value of [separator] once line 77, ["═" * width], has succeeded (see
    [str_repeat]); a negative count gives the empty string. *)
Definition separator (width : Z) : string :=
  PyStr.replicate (Z.to_nat width) "═".

Definition title (k : ConnectionType) : string :=
  "Flipper Zero " ++ PyStr.upper (value k) ++ " Pinout".

(** The heading appended at line 99. *)
Definition pin_section_heading : string :=
  "║                    Pin-Zuordnungen                     ║".

(** The list [ascii_art] once the two centred fields are formatted. *)
Definition ascii_art (self : PinoutGenerator) (config : config)
  (width : Z) (title_field description_field : string) : list string :=
  [ "╔" ++ separator width ++ "╗";
    "║" ++ title_field ++ "║";
    "║" ++ description_field ++ "║";
    "╠" ++ separator width ++ "╣" ]
  ++ (gpio_header_art ++ ["╠" ++ separator width ++ "╣"])
  ++ [ pin_section_heading ]
  ++ [ "╠" ++ separator width ++ "╣" ]
  ++ map (pin_line (flipper_gpio_pins self)) (pins config)
  ++ [ "╠" ++ separator width ++ "╣" ]
  ++ info_lines config
  ++ [ "╚" ++ separator width ++ "╝" ].

(** The lookup of line 72 hashes its key before anything else; the guard of
    line 74 comes before the width is looked at. *)
Definition generate_ascii_pinout (self : PinoutGenerator)
  (connection_type : argument) (width : Z) : result string :=
  match connection_type with
  | Unhashable type_name => unhashable type_name
  | Hashable key =>
      match configs_get self key with
      | None => unknown_connection_type key
      | Some (k, config) =>
          repeated <- str_repeat "═" width ;;
          title_field <- format_center_field (title k) width ;;
          description_field <- format_center_field (description config) width ;;
          Ok (PyStr.join PyStr.nl
                (ascii_art self config width title_field description_field))
      end
  end.

(** The literal wiring list of each branch of [generate_connection_diagram]. *)
Definition wiring_body (k : ConnectionType) : list string :=
  match k with
  | UART => [
      "Flipper Zero    ←→    UART Device";
      "Pin 6 (TX)      ←→    RX";
      "Pin 7 (RX)      ←→    TX";
      "Pin 1 (VCC)     ←→    VCC (3.3V)";
      "Pin 16 (GND)    ←→    GND";
      "";
      "Baudrate: 115200, 8N1"
    ]
  | FTDI => [
      "Flipper Zero    ←→    FTDI Adapter    ←→    USB";
      "Pin 6 (TX)      ←→    RXD";
      "Pin 7 (RX)      ←→    TXD";
      "Pin 1 (VCC)     ←→    VCC (3.3V)";
      "Pin 16 (GND)    ←→    GND";
      "";
      "⚠️  FTDI auf 3.3V einstellen!"
    ]
  | DIRECT => [
      "Flipper Zero    ←→    Custom Hardware";
      "Pin 8 (PC1)     ←→    GPIO Input/Output";
      "Pin 9 (PC0)     ←→    GPIO Input/Output";
      "Pin 12 (PA15)   ←→    GPIO Input/Output";
      "Pin 1 (VCC)     ←→    Power (3.3V)";
      "Pin 16 (GND)    ←→    Ground";
      "";
      "⚠️  GPIO Level: 3.3V max!"
    ]
  | USB => [
      "Flipper Zero USB-C    ←→    Host Device";
      "USB D+               ←→    Data+";
      "USB D-               ←→    Data-";
      "5V (Pin 18)         ←→    USB Power";
      "GND (Pin 16)        ←→    USB Ground";
      "";
      "USB 2.0 Full Speed (12 Mbps)"
    ]
  end.

(** The list [diagram]; its first entry starts with a line feed. *)
Definition diagram (k : ConnectionType) : list string :=
  [ PyStr.nl ++ PyStr.upper (value k) ++ " Verbindungsdiagramm:";
    PyStr.replicate 50 "=" ]
  ++ wiring_body k.

Definition generate_connection_diagram (self : PinoutGenerator)
  (connection_type : argument) : result string :=
  match connection_type with
  | Unhashable type_name => unhashable type_name
  | Hashable key =>
      match configs_get self key with
      | None => unknown_connection_type key
      | Some (k, _) => Ok (PyStr.join PyStr.nl (diagram k))
      end
  end.

Definition get_pin_info (self : PinoutGenerator) (pin_number : Z)
  : option string :=
  dict_get Z.eqb (flipper_gpio_pins self) pin_number.

Definition list_available_connections (self : PinoutGenerator) : list string :=
  map value ConnectionType_members.

Definition reference_line (entry : Z * string) : string :=
  let (pin, description) := entry in
  "║ Pin " ++ PyStr.rjust 2 (PyStr.of_Z pin) ++ ": "
    ++ PyStr.ljust 46 description ++ " ║".

(** The list [reference]. *)
Definition reference (self : PinoutGenerator) : list string :=
    [ "╔" ++ PyStr.replicate 58 "═" ++ "╗";
      "║" ++ PyStr.center 58 "Flipper Zero GPIO Komplette Pin-Referenz" ++ "║";
      "╠" ++ PyStr.replicate 58 "═" ++ "╣" ]
    ++ map reference_line (flipper_gpio_pins self)
    ++ [ "╠" ++ PyStr.replicate 58 "═" ++ "╣";
         "║" ++ PyStr.ljust 58 "Wichtige Hinweise:" ++ "║";
         "║" ++ PyStr.ljust 58 "• GPIO Spannung: 3.3V (5V NICHT tolerant!)" ++ "║";
         "║" ++ PyStr.ljust 58 "• Max. Strom pro Pin: 20mA" ++ "║";
         "║" ++ PyStr.ljust 58 "• SWD Pins für Debugging verwenden" ++ "║";
         "║" ++ PyStr.ljust 58 "• VCC ist 3.3V Ausgang (max. 100mA)" ++ "║";
         "╚" ++ PyStr.replicate 58 "═" ++ "╝" ].

Definition generate_full_pinout_reference (self : PinoutGenerator) : string :=
  PyStr.join PyStr.nl (reference self).

(** ** Method calls on one generator object

    Every method reads [self] and none assigns to it; a call therefore hands
    the object back as it received it. *)

Inductive call : Type :=
| Call_generate_ascii_pinout (connection_type : argument) (width : Z)
| Call_generate_connection_diagram (connection_type : argument)
| Call_get_pin_info (pin_number : Z)
| Call_list_available_connections
| Call_generate_full_pinout_reference.

Inductive answer : Type :=
| Text (r : result string)
| Label (o : option string)
| Names (l : list string).

Definition invoke (self : PinoutGenerator) (c : call)
  : PinoutGenerator * answer :=
  match c with
  | Call_generate_ascii_pinout v w => (self, Text (generate_ascii_pinout self v w))
  | Call_generate_connection_diagram v => (self, Text (generate_connection_diagram self v))
  | Call_get_pin_info n => (self, Label (get_pin_info self n))
  | Call_list_available_connections => (self, Names (list_available_connections self))
  | Call_generate_full_pinout_reference => (self, Text (Ok (generate_full_pinout_reference self)))
  end.

Fixpoint invoke_all (self : PinoutGenerator) (cs : list call)
  : PinoutGenerator * list answer :=
  match cs with
  | [] => (self, [])
  | c :: rest =>
      let (self1, a) := invoke self c in
      let (self2, answers) := invoke_all self1 rest in
      (self2, a :: answers)
  end.

(** ** Command line *)

(** A computation that prints: it is given the lines printed so far and
    returns them extended, with its result or the exception that ended it. *)
Definition io (A : Type) : Type := list string -> result A * list string.

Definition io_ret {A : Type} (a : A) : io A := fun out => (Ok a, out).

Definition io_bind {A B : Type} (m : io A) (f : A -> io B) : io B :=
  fun out =>
    match m out with
    | (Ok a, out1) => f a out1
    | (Raise e, out1) => (Raise e, out1)
    end.

Notation "x <~ m ;; k" := (io_bind m (fun x => k))
  (at level 61, m at next level, right associativity).
Notation "m ;;; k" := (io_bind m (fun _ => k))
  (at level 61, right associativity).

Definition lift {A : Type} (r : result A) : io A := fun out => (r, out).

(** What [sys.stdout.write] makes of one piece of text: [None] when it
    takes the piece, the message of the [UnicodeEncodeError] it raises when
    its encoding cannot express it. *)
Definition stream : Type := string -> option string.

(** A standard output that takes every text. *)
Definition accepting : stream := fun _ => None.

(** The pieces that [print], called with these arguments, writes before
    the line end: the arguments with a blank between two of them. *)
Fixpoint pieces (args : list string) : list string :=
  match args with
  | [] => []
  | a :: rest =>
      match rest with
      | [] => [a]
      | _ :: _ => a :: " " :: pieces rest
      end
  end.

(** The pieces written in turn: the text written when a piece is refused
    or none is left, and the message of the refusal. *)
Fixpoint write_all (stdout : stream) (todo : list string) (written : string)
  : string * option string :=
  match todo with
  | [] => (written, None)
  | piece :: rest =>
      match stdout piece with
      | Some msg => (written, Some msg)
      | None => write_all stdout rest (written ++ piece)
      end
  end.

(** [print] called with these arguments. The output gains one item: what
    the call wrote, less the line end. A call whose first piece is refused
    wrote nothing and adds no item; a call refused later adds what it wrote
    before. *)
Definition print (stdout : stream) (args : list string) : io unit :=
  fun out =>
    match write_all stdout (pieces args) "" with
    | (written, Some msg) =>
        (Raise (UnicodeEncodeError msg),
         match written with
         | "" => out
         | _ => (out ++ [written])%list
         end)
    | (written, None) =>
        match stdout PyStr.nl with
        | Some msg => (Raise (UnicodeEncodeError msg), (out ++ [written])%list)
        | None => (Ok tt, (out ++ [written])%list)
        end
    end.

(** [try: body except ValueError as e: handler(str(e))]. The handler
    catches [ValueError] and its subclass [UnicodeEncodeError]; an exception
    of another class goes on to the caller. *)
Definition try_except_ValueError (body : io unit) (handler : string -> io unit)
  : io unit :=
  fun out =>
    match body out with
    | (Ok u, out1) => (Ok u, out1)
    | (Raise (ValueError msg), out1) => handler msg out1
    | (Raise (UnicodeEncodeError msg), out1) => handler msg out1
    | (Raise e, out1) => (Raise e, out1)
    end.

(** [main()], reading [sys.argv] and writing to [sys.stdout]. The other
    parameters are Python's [str.lower] and [repr]. *)
Definition main_with (stdout : stream) (lower repr : string -> string)
  (argv : list string) : io unit :=
  let generator := __init__ in
  match argv with
  | _ :: arg :: _ =>
      let connection_arg := lower arg in
      if String.eqb connection_arg "full"
      then print stdout [generate_full_pinout_reference generator]
      else
        try_except_ValueError
          (connection_type <~ lift (ConnectionType_of_value_with repr connection_arg) ;;
           pinout <~ lift (generate_ascii_pinout generator (VKind connection_type) 60) ;;
           print stdout [pinout] ;;;
           wiring <~ lift (generate_connection_diagram generator (VKind connection_type)) ;;
           print stdout [wiring])
          (fun e =>
             print stdout ["Fehler: " ++ e] ;;;
             print stdout ["Verfügbare Verbindungstypen:";
                           PyStr.join ", " (list_available_connections generator)])
  | _ =>
      print stdout ["Usage: python pinout_generator.py <connection_type>"] ;;;
      print stdout ["Available connection types:";
                    PyStr.join ", " (list_available_connections generator)] ;;;
      print stdout [PyStr.nl ++ "Or use 'full' for complete pin reference"]
  end.

(** Running the script: what it printed and the exit status of the
    interpreter, 0 when [main] returns and 1 when an exception escapes. *)
Definition run_script_with (stdout : stream) (lower repr : string -> string)
  (argv : list string) : list string * Z :=
  match main_with stdout lower repr argv [] with
  | (Ok _, out) => (out, 0%Z)
  | (Raise _, out) => (out, 1%Z)
  end.

(** The script on arguments made of ASCII characters and a standard output
    that takes every text. *)
Definition main (argv : list string) : io unit :=
  main_with accepting PyStr.lower PyStr.repr argv.

Definition run_script (argv : list string) : list string * Z :=
  run_script_with accepting PyStr.lower PyStr.repr argv.

(** ** Reading rendered text back

    Executable readers used to state what a rendered text shows. *)

Module Read.

Fixpoint drop (n : nat) (s : string) : string :=
  match n, s with
  | O, _ => s
  | S m, String _ r => drop m r
  | S _, EmptyString => EmptyString
  end.

(** [s.split(sep, 1)] when [sep] occurs in [s]. *)
Fixpoint split_once (sep s : string) : option (string * string) :=
  if prefix sep s then Some ("", drop (String.length sep) s)
  else
    match s with
    | EmptyString => None
    | String c r =>
        match split_once sep r with
        | Some (a, b) => Some (String c a, b)
        | None => None
        end
    end.

Fixpoint lstrip (s : string) : string :=
  match s with
  | EmptyString => EmptyString
  | String c r => if Ascii.eqb c " "%char then lstrip r else s
  end.

Definition first_word (s : string) : string :=
  match split_once " " s with
  | Some (w, _) => w
  | None => s
  end.

Definition filter_map {A B : Type} (f : A -> option B) (l : list A) : list B :=
  flat_map (fun a => match f a with Some b => [b] | None => [] end) l.

(** A wiring line pairs the role of a pin, written in parentheses on the
    Flipper side of the arrow, with the text on the device side. *)
Definition pairing_of_line (line : string) : option (string * string) :=
  match split_once "←→" line with
  | Some (flipper, device) =>
      match split_once "(" flipper with
      | Some (_, r) =>
          match split_once ")" r with
          | Some (role, _) => Some (role, lstrip device)
          | None => None
          end
      | None => None
      end
  | None => None
  end.

Definition pairings (text : string) : list (string * string) :=
  filter_map pairing_of_line (PyStr.split_lines text).

(** The role a pin row shows after its pin reference. *)
Definition role_of_row (row : string) : option string :=
  match split_once ": " row with
  | Some (_, rest) => Some (first_word rest)
  | None => None
  end.

(** The pin number a listing line starts with, if it is a pin line. *)
Definition pin_number_of_line (line : string) : option Z :=
  if prefix "║ Pin " line
  then
    match split_once ":" (drop (String.length "║ Pin ") line) with
    | Some (digits, _) =>
        option_map Z.of_int (NilZero.int_of_string (lstrip digits))
    | None => None
    end
  else None.

Definition pin_numbers (lines : list string) : list Z :=
  filter_map pin_number_of_line lines.

(** [a] is [b] with some of its ASCII letters in the other case. *)
Fixpoint case_variant (a b : string) : bool :=
  match a, b with
  | EmptyString, EmptyString => true
  | String x a', String y b' =>
      (Ascii.eqb x y || Ascii.eqb x (PyStr.upper_char y)
       || Ascii.eqb x (PyStr.lower_char y))
      && case_variant a' b'
  | _, _ => false
  end.

(** ASCII characters only, among them no upper-case letter and nothing
    that [repr] escapes. *)
Definition verbatim (s : string) : bool :=
  negb (PyStr.any_char
          (fun c =>
             let n := nat_of_ascii c in
             (128 <=? n)%nat
             || PyStr.is_ascii_upper c || Ascii.eqb c PyStr.backslash
             || Ascii.eqb c PyStr.squote || (n <? 32)%nat || (n =? 127)%nat)
          s).

Definition no_line_feed (s : string) : bool :=
  negb (PyStr.any_char (Ascii.eqb PyStr.line_feed) s).

End Read.

(** The number of optional keys a profile carries, each of which gives one
    line of the closing section. *)
Definition populated (c : config) : nat :=
  List.length (filter (fun f => match f with Some _ => true | None => false end)
                 [baudrate c; voltage c; protocol c; note c]).

(** No string that a profile puts into the boxed pinout holds a line feed:
    description, roles, names, the labels its pins look up and the optional
    values. *)
Definition one_line_profile (gpio : list (Z * string)) (c : config) : bool :=
  Read.no_line_feed (description c)
  && forallb
       (fun entry : pin_ref * string =>
          Read.no_line_feed (snd entry)
          && match fst entry with
             | PinInt n =>
                 Read.no_line_feed (dict_get_default Z.eqb gpio n "Unknown")
             | PinName s => Read.no_line_feed s
             end)
       (pins c)
  && forallb
       (fun field : option string =>
          match field with
          | Some v => Read.no_line_feed v
          | None => true
          end)
       [baudrate c; voltage c; protocol c; note c].

(** The way a wiring diagram names physical pin [n]: before a role in
    parentheses, or itself in parentheses after a rail name. *)
Definition diagram_names_pin (text : string) (n : Z) : bool :=
  PyStr.contains ("Pin " ++ PyStr.of_Z n ++ " (") text
  || PyStr.contains ("(Pin " ++ PyStr.of_Z n ++ ")") text.

(** ** The interactive agent of [main.py]

    The class [FlipperDIYAgent] and its command loop. What the program
    writes is kept as one sequence of events: the prompt of [input], a line
    of [print], or a record handed to the logger, whose two handlers write
    it to standard output and to the log file with a time stamp that is not
    modelled. The root logger is at level INFO, or at DEBUG once a debugging
    agent was built, so every record of the class is emitted. Standard input
    is a finite sequence of lines and interrupts; reading past its end is the
    end-of-file error. An interrupt is taken while [input] waits. *)

Module Agent.

Inductive level : Type := DEBUG | INFO | ERROR.

Inductive event : Type :=
| Prompt (text : string)
| Print (text : string)
| Log (l : level) (message : string).

Record FlipperDIYAgent : Type := {
  connection_type : string;
  debug : bool;
  connected : bool
}.

Definition set_connection_type (self : FlipperDIYAgent) (v : string)
  : FlipperDIYAgent :=
  {| connection_type := v; debug := debug self; connected := connected self |}.

Definition set_connected (self : FlipperDIYAgent) (v : bool)
  : FlipperDIYAgent :=
  {| connection_type := connection_type self; debug := debug self;
     connected := v |}.

(** [FlipperDIYAgent.__init__] *)
Definition __init__ (connection_type0 : string) (debug0 : bool)
  : FlipperDIYAgent * list event :=
  ({| connection_type := connection_type0; debug := debug0;
      connected := false |},
   app (if debug0 then [Log DEBUG "Debug-Modus aktiviert"] else [])
       [Log INFO ("FlipperDIYAgent initialisiert mit Verbindungstyp: "
                  ++ connection_type0)]).

Definition detect_connection_type (self : FlipperDIYAgent)
  : string * list event :=
  let detected := "none" in
  (detected,
   [Log INFO "Erkenne verfügbare Verbindungsmethoden...";
    Log INFO ("Erkannter Verbindungstyp: " ++ detected)]).

Definition connect (self : FlipperDIYAgent)
  : bool * FlipperDIYAgent * list event :=
  let (self1, out1) :=
    if String.eqb (connection_type self) "auto"
    then let (detected, out) := detect_connection_type self in
         (set_connection_type self detected, out)
    else (self, []) in
  if String.eqb (connection_type self1) "none"
  then (false, self1,
        app out1 [Log ERROR "Keine gültige Verbindungsmethode verfügbar"])
  else (true, set_connected self1 true,
        app out1 [Log INFO ("Stelle Verbindung her über: "
                            ++ connection_type self1);
                  Log INFO "Verbindung erfolgreich hergestellt"]).

Definition disconnect (self : FlipperDIYAgent)
  : FlipperDIYAgent * list event :=
  if connected self
  then (set_connected self false,
        [Log INFO "Trenne Verbindung..."; Log INFO "Verbindung getrennt"])
  else (self, []).

(** [c.isspace()] for an ASCII character: tab to carriage return, the four
    separators and the blank. Python strips the white space of the Unicode
    tables too, which [strip] below does not: it is used on ASCII lines
    only, and [loop_with] takes Python's own function as a parameter. *)
Definition is_space (c : ascii) : bool :=
  let n := nat_of_ascii c in
  ((9 <=? n)%nat && (n <=? 13)%nat) || ((28 <=? n)%nat && (n <=? 32)%nat).

Fixpoint lstrip (s : string) : string :=
  match s with
  | EmptyString => EmptyString
  | String c r => if is_space c then lstrip r else s
  end.

Fixpoint rstrip (s : string) : string :=
  match s with
  | EmptyString => EmptyString
  | String c r =>
      match rstrip r with
      | EmptyString => if is_space c then EmptyString else String c EmptyString
      | kept => String c kept
      end
  end.

(** [s.strip()] *)
Definition strip (s : string) : string := rstrip (lstrip s).

(** One pass of the loop body for a command that does not leave the loop. *)
Definition command (self : FlipperDIYAgent) (cmd : string)
  : FlipperDIYAgent * list event :=
  if String.eqb cmd "help"
  then (self, [Print "Verfügbare Befehle: help, status, scan, connect, disconnect, gui, exit"])
  else if String.eqb cmd "status"
  then
    let status := if connected self then "Verbunden" else "Nicht verbunden" in
    (self, [Print ("Status: " ++ status ++ " (Typ: " ++ connection_type self ++ ")")])
  else if String.eqb cmd "scan"
  then
    let (detected, out) := detect_connection_type self in
    (self, app out [Print ("Erkannte Verbindung: " ++ detected)])
  else if String.eqb cmd "connect"
  then
    let '(ok, self1, out) := connect self in
    (self1, app out [Print (if ok then "Verbindung erfolgreich hergestellt"
                            else "Verbindung fehlgeschlagen")])
  else if String.eqb cmd "disconnect"
  then
    let (self1, out) := disconnect self in
    (self1, app out [Print "Verbindung getrennt"])
  else if String.eqb cmd "gui"
  then (self, [Print "GUI-Modus wird in einem zukünftigen Commit implementiert..."])
  else if String.eqb cmd ""
  then (self, [])
  else (self, [Print ("Unbekannter Befehl: " ++ cmd
                      ++ ". Verwenden Sie 'help' für Hilfe.")]).

Inductive input : Type :=
| Line (text : string)
| Interrupt.

Definition leaves (cmd : string) : bool :=
  String.eqb cmd "exit" || String.eqb cmd "quit" || String.eqb cmd "q".

(** The [while True] loop: the agent and the events when the loop is left,
    and the input that was not read. The parameter is what Python makes of
    a line with [.strip().lower()]. *)
Fixpoint loop_with (normalise : string -> string)
  (self : FlipperDIYAgent) (stdin : list input)
  : FlipperDIYAgent * list event * list input :=
  match stdin with
  | [] => (self, [Prompt "flipper-diy> "], [])
  | Interrupt :: rest =>
      (self, [Prompt "flipper-diy> "; Print (PyStr.nl ++ "Beende...")], rest)
  | Line text :: rest =>
      let cmd := normalise text in
      if leaves cmd then (self, [Prompt "flipper-diy> "], rest)
      else
        let (self1, out1) := command self cmd in
        let '(self2, out2, unread) := loop_with normalise self1 rest in
        (self2, Prompt "flipper-diy> " :: app out1 out2, unread)
  end.

(** [.strip().lower()] on a line of ASCII characters. *)
Definition normalise (text : string) : string := PyStr.lower (strip text).

(** The loop on input made of ASCII characters. *)
Definition loop (self : FlipperDIYAgent) (stdin : list input)
  : FlipperDIYAgent * list event * list input :=
  loop_with normalise self stdin.

Definition banner : list event := [
  Print (PyStr.nl ++ "=== FlipperZero DIY Agent - Interaktiver Modus ===");
  Print "Verfügbare Befehle:";
  Print "  help    - Diese Hilfe anzeigen";
  Print "  status  - Verbindungsstatus anzeigen";
  Print "  scan    - Nach Geräten scannen";
  Print "  connect - Verbindung herstellen";
  Print "  disconnect - Verbindung trennen";
  Print "  gui     - GUI-Modus starten (geplant)";
  Print "  exit    - Programm beenden";
  Print ""
].

Definition run_interactive_mode_with (normalise : string -> string)
  (self : FlipperDIYAgent) (stdin : list input)
  : FlipperDIYAgent * list event * list input :=
  let '(self1, out1, unread) := loop_with normalise self stdin in
  let (self2, out2) := disconnect self1 in
  (self2, app banner (app out1 (app out2 [Print "Auf Wiedersehen!"])), unread).

(** The interactive mode on input made of ASCII characters. *)
Definition run_interactive_mode (self : FlipperDIYAgent) (stdin : list input)
  : FlipperDIYAgent * list event * list input :=
  run_interactive_mode_with normalise self stdin.

(** An event that tells the user a connection stands: the success message
    of [connect], printed or logged, or a status line that says connected. *)
Definition reports_connection (e : event) : bool :=
  match e with
  | Print text =>
      String.eqb text "Verbindung erfolgreich hergestellt"
      || prefix "Status: Verbunden" text
  | Log INFO message => String.eqb message "Verbindung erfolgreich hergestellt"
  | _ => false
  end.

(** Nothing but white space. *)
Definition blank (s : string) : bool :=
  negb (PyStr.any_char (fun c => negb (is_space c)) s).

Definition event_eqb (a b : event) : bool :=
  match a, b with
  | Prompt x, Prompt y => String.eqb x y
  | Print x, Print y => String.eqb x y
  | Log DEBUG x, Log DEBUG y => String.eqb x y
  | Log INFO x, Log INFO y => String.eqb x y
  | Log ERROR x, Log ERROR y => String.eqb x y
  | _, _ => false
  end.

End Agent.

(** * Facts about the string operations *)

Section StringFacts.

Lemma append_empty_r (s : string) : s ++ "" = s.
Proof. induction s as [|c s IH]; simpl; [reflexivity | now rewrite IH]. Qed.

Lemma append_assoc (a b c : string) : (a ++ b) ++ c = a ++ b ++ c.
Proof. induction a as [|x a IH]; simpl; [reflexivity | now rewrite IH]. Qed.

Lemma prefix_append (n b : string) : prefix n (n ++ b) = true.
Proof.
  induction n as [|c n IH]; simpl.
  - now destruct b.
  - destruct (ascii_dec c c) as [_|ne]; [exact IH | now elim ne].
Qed.

Lemma prefix_append_l (n a b : string) :
  prefix n a = true -> prefix n (a ++ b) = true.
Proof.
  revert a; induction n as [|c n IH]; intros a H.
  - now destruct (a ++ b).
  - destruct a as [|x a]; simpl in *; [discriminate|].
    destruct (ascii_dec c x); [now apply IH | discriminate].
Qed.

Lemma contains_unfold (n h : string) :
  PyStr.contains n h =
  prefix n h || match h with
                | EmptyString => false
                | String _ r => PyStr.contains n r
                end.
Proof. now destruct h. Qed.

Lemma contains_append_r (n a b : string) :
  PyStr.contains n b = true -> PyStr.contains n (a ++ b) = true.
Proof.
  intros H; induction a as [|c a IH]; [exact H|].
  change (String c a ++ b) with (String c (a ++ b)).
  rewrite contains_unfold, IH; apply orb_true_r.
Qed.

Lemma contains_append_l (n a b : string) :
  PyStr.contains n a = true -> PyStr.contains n (a ++ b) = true.
Proof.
  induction a as [|c a IH]; intros H.
  - rewrite contains_unfold in H. rewrite orb_false_r in H.
    rewrite contains_unfold. now rewrite (prefix_append_l n "" b H).
  - rewrite contains_unfold in H. apply orb_true_iff in H.
    change (String c a ++ b) with (String c (a ++ b)).
    rewrite contains_unfold. apply orb_true_iff.
    destruct H as [H|H]; [left | right; now apply IH].
    exact (prefix_append_l n (String c a) b H).
Qed.

Lemma contains_here (n b : string) : PyStr.contains n (n ++ b) = true.
Proof. rewrite contains_unfold, prefix_append. reflexivity. Qed.

Lemma contains_self (n : string) : PyStr.contains n n = true.
Proof. rewrite <- (append_empty_r n) at 2. apply contains_here. Qed.

Lemma contains_middle (n a b : string) : PyStr.contains n (a ++ n ++ b) = true.
Proof. apply contains_append_r, contains_here. Qed.

Lemma contains_join (sep n x : string) (l : list string) :
  In x l -> PyStr.contains n x = true ->
  PyStr.contains n (PyStr.join sep l) = true.
Proof.
  intros Hin Hx; induction l as [|y l IH]; [contradiction|].
  destruct l as [|z l].
  - destruct Hin as [->|[]]. exact Hx.
  - change (PyStr.join sep (y :: z :: l)) with (y ++ sep ++ PyStr.join sep (z :: l)).
    destruct Hin as [->|Hin].
    + now apply contains_append_l.
    + now apply contains_append_r, contains_append_r, IH.
Qed.

Lemma contains_ljust (w : nat) (s : string) :
  PyStr.contains s (PyStr.ljust w s) = true.
Proof. apply contains_here. Qed.

Lemma contains_rjust (w : nat) (s : string) :
  PyStr.contains s (PyStr.rjust w s) = true.
Proof. apply contains_append_r, contains_self. Qed.

Lemma contains_format_center (w : nat) (s : string) :
  PyStr.contains s (PyStr.format_center w s) = true.
Proof. apply contains_middle. Qed.

(** Code points add up over concatenation: a byte is a continuation byte
    or not whatever surrounds it. *)
Lemma len_append (a b : string) :
  PyStr.len (a ++ b) = PyStr.len a + PyStr.len b.
Proof.
  induction a as [|c a IH]; simpl; [reflexivity|].
  destruct (PyStr.is_continuation c); simpl; now rewrite IH.
Qed.

Lemma len_replicate (n : nat) (s : string) :
  PyStr.len (PyStr.replicate n s) = n * PyStr.len s.
Proof.
  induction n as [|n IH]; simpl; [reflexivity|].
  now rewrite len_append, IH.
Qed.

Lemma any_char_append (p : ascii -> bool) (a b : string) :
  PyStr.any_char p (a ++ b) = PyStr.any_char p a || PyStr.any_char p b.
Proof.
  induction a as [|c a IH]; simpl; [reflexivity|].
  now rewrite IH, orb_assoc.
Qed.

Lemma any_char_replicate (p : ascii -> bool) (n : nat) (s : string) :
  PyStr.any_char p s = false -> PyStr.any_char p (PyStr.replicate n s) = false.
Proof.
  intros H; induction n as [|n IH]; simpl; [reflexivity|].
  now rewrite any_char_append, H, IH.
Qed.

Lemma no_line_feed_append (a b : string) :
  Read.no_line_feed (a ++ b) = Read.no_line_feed a && Read.no_line_feed b.
Proof.
  unfold Read.no_line_feed. rewrite any_char_append. apply negb_orb.
Qed.

Lemma no_line_feed_replicate (n : nat) (s : string) :
  Read.no_line_feed s = true -> Read.no_line_feed (PyStr.replicate n s) = true.
Proof.
  unfold Read.no_line_feed. intros H. apply negb_true_iff in H.
  now rewrite any_char_replicate.
Qed.

Lemma no_line_feed_format_center (w : nat) (s : string) :
  Read.no_line_feed s = true ->
  Read.no_line_feed (PyStr.format_center w s) = true.
Proof.
  intros H. unfold PyStr.format_center, PyStr.spaces.
  rewrite !no_line_feed_append, H, !no_line_feed_replicate by reflexivity.
  reflexivity.
Qed.

Lemma no_line_feed_String (c : ascii) (s : string) :
  Read.no_line_feed (String c s) = true ->
  Ascii.eqb c PyStr.line_feed = false /\ Read.no_line_feed s = true.
Proof.
  unfold Read.no_line_feed.
  change (PyStr.any_char (Ascii.eqb PyStr.line_feed) (String c s))
    with (Ascii.eqb PyStr.line_feed c
          || PyStr.any_char (Ascii.eqb PyStr.line_feed) s).
  intros H. apply negb_true_iff, orb_false_iff in H. destruct H as [Hc Hs].
  split; [now rewrite Ascii.eqb_sym | now rewrite Hs].
Qed.

Lemma split_lines_aux_String (cur : string) (c : ascii) (r : string) :
  PyStr.split_lines_aux cur (String c r)
  = if Ascii.eqb c PyStr.line_feed
    then cur :: PyStr.split_lines_aux "" r
    else PyStr.split_lines_aux (cur ++ String c "") r.
Proof. reflexivity. Qed.

Lemma split_lines_aux_line (cur s : string) :
  Read.no_line_feed s = true ->
  PyStr.split_lines_aux cur s = [cur ++ s].
Proof.
  revert cur; induction s as [|c s IH]; intros cur H.
  - simpl. now rewrite append_empty_r.
  - apply no_line_feed_String in H. destruct H as [Hc Hs].
    rewrite split_lines_aux_String, Hc, IH by exact Hs.
    now rewrite append_assoc.
Qed.

Lemma split_lines_aux_cons (cur s rest : string) :
  Read.no_line_feed s = true ->
  PyStr.split_lines_aux cur (s ++ PyStr.nl ++ rest)
  = (cur ++ s) :: PyStr.split_lines_aux "" rest.
Proof.
  revert cur; induction s as [|c s IH]; intros cur H.
  - change ("" ++ PyStr.nl ++ rest) with (String PyStr.line_feed rest).
    rewrite split_lines_aux_String, Ascii.eqb_refl.
    now rewrite append_empty_r.
  - apply no_line_feed_String in H. destruct H as [Hc Hs].
    change (String c s ++ PyStr.nl ++ rest)
      with (String c (s ++ PyStr.nl ++ rest)).
    rewrite split_lines_aux_String, Hc, IH by exact Hs.
    now rewrite append_assoc.
Qed.

(** Joining lines with line feeds and splitting again gives the lines. *)
Lemma split_lines_join (l : list string) :
  l <> [] -> forallb Read.no_line_feed l = true ->
  PyStr.split_lines (PyStr.join PyStr.nl l) = l.
Proof.
  unfold PyStr.split_lines.
  induction l as [|x l IH]; intros Hne H; [now elim Hne|].
  simpl in H. apply andb_true_iff in H. destruct H as [Hx Hl].
  destruct l as [|y l].
  - simpl. now rewrite split_lines_aux_line.
  - change (PyStr.join PyStr.nl (x :: y :: l))
      with (x ++ PyStr.nl ++ PyStr.join PyStr.nl (y :: l)).
    rewrite split_lines_aux_cons by exact Hx.
    simpl (_ ++ _). f_equal. apply IH; [discriminate | exact Hl].
Qed.

Lemma prefix_split (n h : string) :
  prefix n h = true -> exists b, h = n ++ b.
Proof.
  revert h; induction n as [|c n IH]; intros h H.
  - now exists h.
  - destruct h as [|x h]; simpl in H; [discriminate|].
    destruct (ascii_dec c x) as [->|]; [|discriminate].
    destruct (IH h H) as [b ->]. now exists b.
Qed.

Lemma contains_split (n h : string) :
  PyStr.contains n h = true -> exists a b, h = a ++ n ++ b.
Proof.
  induction h as [|c h IH]; intros H; rewrite contains_unfold in H;
    apply orb_true_iff in H; destruct H as [H|H]; try discriminate H.
  - destruct (prefix_split _ _ H) as [b E]. now exists "", b.
  - destruct (prefix_split _ _ H) as [b E]. now exists "", b.
  - destruct (IH H) as (a & b & ->). now exists (String c a), b.
Qed.

(** A character of the needle occurs wherever the needle does. *)
Lemma contains_char (p : ascii -> bool) (n h : string) :
  PyStr.any_char p n = true -> PyStr.any_char p h = false ->
  PyStr.contains n h = false.
Proof.
  intros Hn Hh. destruct (PyStr.contains n h) eqn:C; [|reflexivity].
  destruct (contains_split n h C) as (a & b & ->).
  rewrite !any_char_append, Hn, orb_true_r in Hh. discriminate Hh.
Qed.

Lemma prefix_before_line_feed (n a b : string) :
  Read.no_line_feed n = true ->
  prefix n (a ++ PyStr.nl ++ b) = true -> prefix n a = true.
Proof.
  revert a; induction n as [|c n IH]; intros a Hn H.
  - now destruct a.
  - apply no_line_feed_String in Hn. destruct Hn as [Hc Hn].
    destruct a as [|x a].
    + change ("" ++ PyStr.nl ++ b) with (String PyStr.line_feed b) in H.
      simpl in H. destruct (ascii_dec c PyStr.line_feed) as [->|];
        [|discriminate].
      now rewrite Ascii.eqb_refl in Hc.
    + change (String x a ++ PyStr.nl ++ b)
        with (String x (a ++ PyStr.nl ++ b)) in H.
      simpl in H |- *. destruct (ascii_dec c x); [|discriminate].
      now apply IH.
Qed.

Lemma contains_lines (n a b : string) :
  Read.no_line_feed n = true -> n <> "" ->
  PyStr.contains n (a ++ PyStr.nl ++ b) = true ->
  PyStr.contains n a = true \/ PyStr.contains n b = true.
Proof.
  intros Hn Hne. induction a as [|c a IH]; intros H.
  - change ("" ++ PyStr.nl ++ b) with (String PyStr.line_feed b) in H.
    rewrite contains_unfold in H. apply orb_true_iff in H.
    destruct H as [H|H]; [|now right].
    apply (prefix_before_line_feed n "" b Hn) in H.
    destruct n; [now elim Hne | discriminate H].
  - change (String c a ++ PyStr.nl ++ b)
      with (String c (a ++ PyStr.nl ++ b)) in H.
    rewrite contains_unfold in H. apply orb_true_iff in H.
    destruct H as [H|H].
    + left. apply (prefix_before_line_feed n (String c a) b Hn) in H.
      rewrite contains_unfold, H. reflexivity.
    + destruct (IH H) as [L|R]; [left | now right].
      rewrite contains_unfold, L. apply orb_true_r.
Qed.

(** What a joined text contains without a line feed, one of its lines
    contains. *)
Lemma contains_join_lines (n : string) (l : list string) :
  Read.no_line_feed n = true -> n <> "" ->
  forallb (fun line => negb (PyStr.contains n line)) l = true ->
  PyStr.contains n (PyStr.join PyStr.nl l) = false.
Proof.
  intros Hn Hne. induction l as [|x l IH]; intros H.
  - destruct n; [now elim Hne | reflexivity].
  - cbn [forallb] in H. apply andb_true_iff in H. destruct H as [Hx Hl].
    apply negb_true_iff in Hx. destruct l as [|y l]; [exact Hx|].
    change (PyStr.join PyStr.nl (x :: y :: l))
      with (x ++ PyStr.nl ++ PyStr.join PyStr.nl (y :: l)).
    destruct (PyStr.contains n (x ++ PyStr.nl ++ PyStr.join PyStr.nl (y :: l)))
      eqn:C; [|reflexivity].
    destruct (contains_lines n _ _ Hn Hne C) as [L|R].
    + now rewrite Hx in L.
    + now rewrite (IH Hl) in R.
Qed.

End StringFacts.

(** * The boxed pinout *)

Section BoxedPinout.

Variable self : PinoutGenerator.
Variable k : ConnectionType.
Variable cfg : config.
Variable width : Z.

Hypothesis known :
  dict_get ConnectionType_eqb (connection_configs self) k = Some cfg.
Hypothesis width_nonneg : (0 <= width)%Z.

Lemma format_center_field_ok (s : string) :
  format_center_field s width = Ok (PyStr.format_center (Z.to_nat width) s).
Proof.
  unfold format_center_field.
  destruct (Z.ltb_spec width 0) as [neg|_]; [lia | reflexivity].
Qed.

Lemma str_repeat_ok (s : string) :
  str_repeat s width = Ok (PyStr.replicate (Z.to_nat width) s).
Proof.
  unfold str_repeat.
  assert (- 2 ^ 63 < 0)%Z by reflexivity.
  destruct (Z.ltb_spec width (- 2 ^ 63)) as [neg|_]; [lia | reflexivity].
Qed.

(** With a known kind and a width that is not negative the renderer
    returns its list of lines joined by line feeds. *)
Lemma generate_ascii_pinout_ok :
  generate_ascii_pinout self (VKind k) width
  = Ok (PyStr.join PyStr.nl
          (ascii_art self cfg width
             (PyStr.format_center (Z.to_nat width) (title k))
             (PyStr.format_center (Z.to_nat width) (description cfg)))).
Proof.
  unfold generate_ascii_pinout, configs_get. rewrite known.
  rewrite str_repeat_ok. cbn [bind].
  now rewrite !format_center_field_ok.
Qed.

(** The pin rows are lines 15 onwards, one per profile entry. *)
Lemma ascii_art_rows (tf df : string) :
  exists head tail,
    ascii_art self cfg width tf df
    = (head ++ map (pin_line (flipper_gpio_pins self)) (pins cfg) ++ tail)%list
    /\ List.length head = 14
    /\ hd "" head = "╔" ++ separator width ++ "╗"
    /\ nth 1 head "" = "║" ++ tf ++ "║"
    /\ nth 2 head "" = "║" ++ df ++ "║".
Proof.
  eexists (_ :: _ :: _ :: _ :: _ :: _ :: _ :: _ :: _ :: _ :: _ :: _ :: _ :: [_]).
  eexists. repeat split.
Qed.

Lemma ascii_art_length (tf df : string) :
  List.length (ascii_art self cfg width tf df)
  = 16 + List.length (pins cfg) + List.length (info_lines cfg).
Proof.
  unfold ascii_art. repeat rewrite ?length_app, ?length_map. simpl. lia.
Qed.

Lemma rule_no_line_feed (l r : string) :
  Read.no_line_feed l = true -> Read.no_line_feed r = true ->
  Read.no_line_feed (l ++ separator width ++ r) = true.
Proof.
  intros Hl Hr. unfold separator.
  now rewrite !no_line_feed_append, Hl, Hr, no_line_feed_replicate.
Qed.

Lemma ascii_art_no_line_feed (tf df : string) :
  Read.no_line_feed tf = true -> Read.no_line_feed df = true ->
  forallb Read.no_line_feed
    (map (pin_line (flipper_gpio_pins self)) (pins cfg)) = true ->
  forallb Read.no_line_feed (info_lines cfg) = true ->
  forallb Read.no_line_feed (ascii_art self cfg width tf df) = true.
Proof.
  intros Ht Hd Hrows Hinfo. unfold ascii_art.
  rewrite !forallb_app, Hrows, Hinfo.
  cbn [forallb].
  rewrite !rule_no_line_feed by reflexivity.
  rewrite !no_line_feed_append, Ht, Hd.
  reflexivity.
Qed.

End BoxedPinout.

Lemma pin_line_int (gpio : list (Z * string)) (n : Z) (role : string) :
  pin_line gpio (PinInt n, role)
  = "║ Pin " ++ PyStr.rjust 2 (PyStr.of_Z n) ++ ": " ++ PyStr.ljust 10 role
      ++ " → " ++ PyStr.ljust 25 (dict_get_default Z.eqb gpio n "Unknown")
      ++ " ║".
Proof. reflexivity. Qed.

Lemma pin_line_name (gpio : list (Z * string)) (nm role : string) :
  pin_line gpio (PinName nm, role)
  = "║ " ++ nm ++ ": " ++ PyStr.ljust 35 role ++ " ║".
Proof. reflexivity. Qed.

(** Finds the shown part inside a concatenation of fields. *)
Ltac shown :=
  first [ apply contains_ljust
        | apply contains_rjust
        | apply contains_format_center
        | apply contains_self
        | apply contains_here
        | apply contains_append_l; shown
        | apply contains_append_r; shown ].

Lemma pin_line_shows_role (gpio : list (Z * string)) (entry : pin_ref * string) :
  PyStr.contains (snd entry) (pin_line gpio entry) = true.
Proof.
  destruct entry as [[n|nm] role]; simpl snd.
  - rewrite pin_line_int. shown.
  - rewrite pin_line_name. shown.
Qed.

(** C3. For any catalog and any profile, a known kind and a width that is
    not negative: the renderer does not fail, and lines 15 onwards of its
    output are one row per profile entry, in order. The row of an integer
    pin reference shows the pin number, the role and the catalog label of
    that index, or the word Unknown when the catalog has no such index. The
    row of a named reference shows the name and the role and is the same
    whatever the catalog holds. *)
Theorem pin_rows_show_catalog_labels
  (self : PinoutGenerator) (k : ConnectionType) (cfg : config) (width : Z) :
  dict_get ConnectionType_eqb (connection_configs self) k = Some cfg ->
  (0 <= width)%Z ->
  exists head tail,
    generate_ascii_pinout self (VKind k) width
    = Ok (PyStr.join PyStr.nl
            (head ++ map (pin_line (flipper_gpio_pins self)) (pins cfg) ++ tail))
    /\ List.length head = 14
    /\ (forall n role,
          let row := pin_line (flipper_gpio_pins self) (PinInt n, role) in
          PyStr.contains (PyStr.of_Z n) row = true
          /\ PyStr.contains role row = true
          /\ PyStr.contains
               (match get_pin_info self n with
                | Some label => label
                | None => "Unknown"
                end) row = true)
    /\ (forall nm role,
          let row := pin_line (flipper_gpio_pins self) (PinName nm, role) in
          PyStr.contains nm row = true
          /\ PyStr.contains role row = true
          /\ forall other : PinoutGenerator,
               pin_line (flipper_gpio_pins other) (PinName nm, role) = row).
Proof.
  intros known Hw.
  rewrite (generate_ascii_pinout_ok self k cfg width known Hw).
  destruct (ascii_art_rows self cfg width
              (PyStr.format_center (Z.to_nat width) (title k))
              (PyStr.format_center (Z.to_nat width) (description cfg)))
    as (head & tail & E & L & _).
  exists head, tail. rewrite E. split; [reflexivity|]. split; [exact L|].
  split.
  - intros n role row. subst row. rewrite pin_line_int.
    repeat split; shown.
  - intros nm role row. subst row. rewrite pin_line_name.
    repeat split; shown.
Qed.

(** A catalog with a gap: pin 2 of the profile has no label. *)
Lemma pin_rows_show_catalog_labels_witness :
  exists head tail,
    generate_ascii_pinout
      {| flipper_gpio_pins := [(1%Z, "VCC (3.3V)")];
         connection_configs :=
           [(UART, {| pins := [(PinInt 1, "VCC"); (PinInt 2, "TX");
                               (PinName "USB_D+", "Data+")];
                      description := "gap";
                      baudrate := None; voltage := None;
                      protocol := None; note := None |})] |}
      (VKind UART) 60
    = Ok (PyStr.join PyStr.nl
            (head ++ [ "║ Pin  1: VCC        → VCC (3.3V)                ║";
                       "║ Pin  2: TX         → Unknown                   ║";
                       "║ USB_D+: Data+                               ║" ]
               ++ tail))
    /\ List.length head = 14.
Proof.
  destruct (pin_rows_show_catalog_labels
              {| flipper_gpio_pins := [(1%Z, "VCC (3.3V)")];
                 connection_configs :=
                   [(UART, {| pins := [(PinInt 1, "VCC"); (PinInt 2, "TX");
                                       (PinName "USB_D+", "Data+")];
                              description := "gap";
                              baudrate := None; voltage := None;
                              protocol := None; note := None |})] |}
              UART _ 60 eq_refl ltac:(lia))
    as (head & tail & E & L & _).
  exists head, tail. split; [exact E | exact L].
Defined.

(** The text of a boxed pinout read back line by line, for a profile whose
    strings hold no line feed. *)
Lemma boxed_pinout_lines
  (self : PinoutGenerator) (k : ConnectionType) (cfg : config) (width : Z) :
  dict_get ConnectionType_eqb (connection_configs self) k = Some cfg ->
  (0 <= width)%Z ->
  Read.no_line_feed (description cfg) = true ->
  forallb Read.no_line_feed
    (map (pin_line (flipper_gpio_pins self)) (pins cfg)) = true ->
  forallb Read.no_line_feed (info_lines cfg) = true ->
  let lines :=
    ascii_art self cfg width
      (PyStr.format_center (Z.to_nat width) (title k))
      (PyStr.format_center (Z.to_nat width) (description cfg)) in
  generate_ascii_pinout self (VKind k) width = Ok (PyStr.join PyStr.nl lines)
  /\ PyStr.split_lines (PyStr.join PyStr.nl lines) = lines.
Proof.
  intros known Hw Hd Hrows Hinfo lines.
  split; [exact (generate_ascii_pinout_ok self k cfg width known Hw)|].
  apply split_lines_join; [discriminate|].
  apply ascii_art_no_line_feed; try assumption.
  - apply no_line_feed_format_center. clear. destruct k; vm_compute; reflexivity.
  - now apply no_line_feed_format_center.
Qed.

(** The profiles of [__init__] meet the side conditions above, and their
    rows read back to the roles in profile order. *)
Lemma init_profiles (k : ConnectionType) :
  exists cfg,
    dict_get ConnectionType_eqb (connection_configs __init__) k = Some cfg
    /\ Read.no_line_feed (description cfg) = true
    /\ forallb Read.no_line_feed
         (map (pin_line (flipper_gpio_pins __init__)) (pins cfg)) = true
    /\ forallb Read.no_line_feed (info_lines cfg) = true
    /\ Read.filter_map Read.role_of_row
         (map (pin_line (flipper_gpio_pins __init__)) (pins cfg))
       = map snd (pins cfg)
    /\ List.length (info_lines cfg) = 1.
Proof.
  destruct k; eexists; (split; [reflexivity|]); repeat split; vm_compute; reflexivity.
Qed.

(** C2, refuted as stated: at width -1 the centred title field cannot be
    formatted, the call raises and there is no output to contain anything. *)
Lemma boxed_pinout_negative_width :
  generate_ascii_pinout __init__ (VKind UART) (-1)
  = Raise (ValueError "Sign not allowed in string format specifier")
  /\ ~ (exists text,
          generate_ascii_pinout __init__ (VKind UART) (-1) = Ok text
          /\ PyStr.contains "Standard UART Verbindung" text = true).
Proof.
  split; [reflexivity|].
  intros (text & E & _). vm_compute in E. discriminate E.
Qed.

(** C2, amended. For every kind and every width that is not negative the
    boxed pinout is produced; it contains the description of the kind and
    every role label of its profile; its lines 15 onwards are the pin rows,
    one per profile entry in insertion order, and reading the role off each
    row gives back the profile's roles in that order. *)
Theorem boxed_pinout_shows_profile (k : ConnectionType) (width : Z) :
  (0 <= width)%Z ->
  exists cfg text head tail,
    dict_get ConnectionType_eqb (connection_configs __init__) k = Some cfg
    /\ generate_ascii_pinout __init__ (VKind k) width = Ok text
    /\ PyStr.contains (description cfg) text = true
    /\ Forall (fun entry => PyStr.contains (snd entry) text = true) (pins cfg)
    /\ PyStr.split_lines text
       = (head ++ map (pin_line (flipper_gpio_pins __init__)) (pins cfg) ++ tail)%list
    /\ List.length head = 14
    /\ Read.filter_map Read.role_of_row
         (map (pin_line (flipper_gpio_pins __init__)) (pins cfg))
       = map snd (pins cfg).
Proof.
  intros Hw.
  destruct (init_profiles k) as (cfg & known & Hd & Hrows & Hinfo & Hroles & _).
  destruct (boxed_pinout_lines __init__ k cfg width known Hw Hd Hrows Hinfo)
    as (Etext & Elines).
  destruct (ascii_art_rows __init__ cfg width
              (PyStr.format_center (Z.to_nat width) (title k))
              (PyStr.format_center (Z.to_nat width) (description cfg)))
    as (head & tail & E & L & _ & _ & Hdesc).
  exists cfg. eexists. exists head, tail.
  split; [exact known|]. split; [exact Etext|].
  repeat split; try assumption.
  - apply contains_join with (x := nth 2 head "").
    + rewrite E. apply in_or_app. left. apply nth_In. lia.
    + rewrite Hdesc. shown.
  - apply Forall_forall. intros entry Hin.
    apply contains_join with (x := pin_line (flipper_gpio_pins __init__) entry).
    + rewrite E. apply in_or_app. right. apply in_or_app. left.
      now apply in_map.
    + apply pin_line_shows_role.
  - now rewrite Elines.
Qed.

Lemma boxed_pinout_shows_profile_witness :
  exists cfg text head tail,
    dict_get ConnectionType_eqb (connection_configs __init__) USB = Some cfg
    /\ generate_ascii_pinout __init__ (VKind USB) 60 = Ok text
    /\ PyStr.contains (description cfg) text = true
    /\ Forall (fun entry => PyStr.contains (snd entry) text = true) (pins cfg)
    /\ PyStr.split_lines text
       = (head ++ map (pin_line (flipper_gpio_pins __init__)) (pins cfg) ++ tail)%list
    /\ List.length head = 14
    /\ Read.filter_map Read.role_of_row
         (map (pin_line (flipper_gpio_pins __init__)) (pins cfg))
       = map snd (pins cfg).
Proof.
  apply (boxed_pinout_shows_profile USB 60). lia.
Defined.

(** * Unknown connection kinds *)

(** What a negative width does to the boxed pinout of a configured kind:
    below the least index the repetition of line 77 is refused; at the
    least index the digits of the format spec are too many; above it the
    sign of the format spec is refused. *)
Lemma generate_ascii_pinout_negative
  (self : PinoutGenerator) (k : ConnectionType) (cfg : config) (width : Z) :
  dict_get ConnectionType_eqb (connection_configs self) k = Some cfg ->
  (width < 0)%Z ->
  ((- 2 ^ 63 < width)%Z ->
   generate_ascii_pinout self (VKind k) width
   = Raise (ValueError "Sign not allowed in string format specifier"))
  /\ (width = (- 2 ^ 63)%Z ->
      generate_ascii_pinout self (VKind k) width
      = Raise (ValueError "Too many decimal digits in format string"))
  /\ ((width < - 2 ^ 63)%Z ->
      generate_ascii_pinout self (VKind k) width
      = Raise (OverflowError "cannot fit 'int' into an index-sized integer")).
Proof.
  intros known Hw. unfold generate_ascii_pinout, configs_get. rewrite known.
  unfold str_repeat, format_center_field.
  destruct (Z.ltb_spec width (- 2 ^ 63)) as [low|high];
    destruct (Z.ltb_spec width 0) as [_|pos]; try lia;
    destruct (Z.leb_spec width (- 2 ^ 63)) as [le|gt];
    cbn [bind]; repeat split; intros; try reflexivity; lia.
Qed.

(** C1, refuted as stated: the boxed pinout of FTDI, one of the four kinds,
    raises at width -5; and a list, a value outside the four kinds, makes
    both renderers raise the type error of the dictionary lookup, which is
    not the error for an unknown connection type. *)
Lemma renderers_raise_other_errors :
  generate_ascii_pinout __init__ (VKind FTDI) (-5)
  = Raise (ValueError "Sign not allowed in string format specifier")
  /\ generate_ascii_pinout __init__ (Unhashable "list") 60
     = Raise (TypeError "unhashable type: 'list'")
  /\ generate_connection_diagram __init__ (Unhashable "list")
     = Raise (TypeError "unhashable type: 'list'").
Proof. repeat split. Qed.

(** C1, amended. A hashable value that is none of the four enum members
    makes both renderers raise the same value error, whatever the width, so
    nothing is returned: the error for an unknown connection type, which
    shows the value, unless the value is an integer of more than 4300
    digits, which the interpreter refuses to show. An unhashable value
    makes both raise the type error of the dictionary lookup. For each of
    the four members the wiring diagram is returned and the boxed pinout is
    returned at every width that is not negative; at a negative width the
    boxed pinout raises an error of the format spec or of the repetition,
    never the one for an unknown connection type. *)
Theorem unknown_kind_is_refused (a : argument) (width : Z) :
  (forall v, a = Hashable v -> (forall k, v <> VKind k) ->
     exists msg,
       generate_ascii_pinout __init__ a width = Raise (ValueError msg)
       /\ generate_connection_diagram __init__ a = Raise (ValueError msg)
       /\ (forall shown, py_str v = Ok shown ->
           msg = "Unbekannter Verbindungstyp: " ++ shown)
       /\ ((forall n, v = VInt n -> (Z.abs n < 10 ^ 4300)%Z) ->
           exists shown, py_str v = Ok shown))
  /\ (forall type_name, a = Unhashable type_name ->
        generate_ascii_pinout __init__ a width
        = Raise (TypeError ("unhashable type: '" ++ type_name ++ "'"))
        /\ generate_connection_diagram __init__ a
           = Raise (TypeError ("unhashable type: '" ++ type_name ++ "'")))
  /\ (forall k, a = Hashable (VKind k) ->
        (exists text, generate_connection_diagram __init__ a = Ok text)
        /\ ((0 <= width)%Z ->
            exists text, generate_ascii_pinout __init__ a width = Ok text)
        /\ ((width < 0)%Z ->
            exists e,
              generate_ascii_pinout __init__ a width = Raise e
              /\ (e = ValueError "Sign not allowed in string format specifier"
                  \/ e = ValueError "Too many decimal digits in format string"
                  \/ e = OverflowError
                           "cannot fit 'int' into an index-sized integer"))).
Proof.
  split; [|split].
  - intros v -> outside.
    destruct v as [k|s|n|]; [now elim (outside k)| | |].
    + eexists. split; [reflexivity|]. split; [reflexivity|].
      split; [intros shown E; now injection E as <- | now eexists].
    + unfold generate_ascii_pinout, generate_connection_diagram,
        unknown_connection_type.
      cbn [configs_get py_str]. unfold int_str.
      destruct (Z.leb_spec (10 ^ 4300) (Z.abs n)) as [long|short];
        cbn [bind]; eexists; (split; [reflexivity|]);
        (split; [reflexivity|]).
      * split; [intros shown E; discriminate E|].
        intros small. specialize (small n eq_refl). lia.
      * split; [intros shown E; now injection E as <- | now eexists].
    + eexists. split; [reflexivity|]. split; [reflexivity|].
      split; [intros shown E; now injection E as <- | now eexists].
  - intros type_name ->. split; reflexivity.
  - intros k ->.
    destruct (init_profiles k) as (cfg & known & _).
    split; [|split].
    + destruct k; eexists; reflexivity.
    + intros Hw. eexists.
      exact (generate_ascii_pinout_ok __init__ k cfg width known Hw).
    + intros neg.
      destruct (generate_ascii_pinout_negative __init__ k cfg width known neg)
        as (Hsign & Hdigits & Hfit).
      destruct (Z.lt_trichotomy width (- 2 ^ 63)) as [lt|[eq|gt]].
      * eexists. split; [exact (Hfit lt) | right; right; reflexivity].
      * eexists. split; [exact (Hdigits eq) | right; left; reflexivity].
      * eexists. split; [exact (Hsign gt) | left; reflexivity].
Qed.

(** The string uart is not the enum member UART. *)
Lemma unknown_kind_is_refused_witness :
  (exists msg,
     generate_ascii_pinout __init__ (VStr "uart") 60 = Raise (ValueError msg)
     /\ generate_connection_diagram __init__ (VStr "uart")
        = Raise (ValueError msg)
     /\ (forall shown, py_str (VStr "uart") = Ok shown ->
         msg = "Unbekannter Verbindungstyp: " ++ shown)
     /\ ((forall n, VStr "uart" = VInt n -> (Z.abs n < 10 ^ 4300)%Z) ->
         exists shown, py_str (VStr "uart") = Ok shown))
  /\ (generate_ascii_pinout __init__ (Unhashable "dict") 60
      = Raise (TypeError "unhashable type: 'dict'")
      /\ generate_connection_diagram __init__ (Unhashable "dict")
         = Raise (TypeError "unhashable type: 'dict'"))
  /\ (exists text, generate_ascii_pinout __init__ (VKind FTDI) 60 = Ok text).
Proof.
  split; [|split].
  - apply (proj1 (unknown_kind_is_refused (VStr "uart") 60) (VStr "uart")
             eq_refl).
    intros k. discriminate.
  - apply (proj1 (proj2 (unknown_kind_is_refused (Unhashable "dict") 60))
             "dict" eq_refl).
  - apply (proj1 (proj2 (proj2 (proj2 (unknown_kind_is_refused
                                         (VKind FTDI) 60))
                           FTDI eq_refl))).
    lia.
Defined.

(** * Purity *)

Lemma invoke_self (self : PinoutGenerator) (c : call) :
  fst (invoke self c) = self.
Proof. now destruct c. Qed.

Lemma invoke_all_self (self : PinoutGenerator) (cs : list call) :
  fst (invoke_all self cs) = self.
Proof.
  revert self; induction cs as [|c cs IH]; intros self; simpl; [reflexivity|].
  pose proof (invoke_self self c) as E1.
  destruct (invoke self c) as [self1 a]. simpl in E1. subst self1.
  pose proof (IH self) as E2.
  destruct (invoke_all self cs) as [self2 answers]. exact E2.
Qed.

Lemma rule_len (l r : string) (width : Z) :
  PyStr.len (l ++ separator width ++ r)
  = PyStr.len l + Z.to_nat width + PyStr.len r.
Proof.
  unfold separator. rewrite !len_append, len_replicate.
  change (PyStr.len "═") with 1. lia.
Qed.

(** C8. On a generator as [__init__] builds it, whatever methods were
    called before and in between, two calls of the boxed pinout with the
    same selector and width give the same outcome, which is the one a fresh
    generator gives, and the generator is left as it was. When the outcome
    is a text (a known kind, a width that is not negative) its number of
    lines is fixed by the kind and its top border is [width + 2] code points
    wide. *)
Theorem boxed_pinout_is_repeatable
  (before between : list call) (v : py_value) (width : Z) :
  let g1 := fst (invoke_all __init__ before) in
  let first := invoke g1 (Call_generate_ascii_pinout v width) in
  let g2 := fst (invoke_all (fst first) between) in
  let second := invoke g2 (Call_generate_ascii_pinout v width) in
  snd first = snd second
  /\ snd first = Text (generate_ascii_pinout __init__ v width)
  /\ fst second = __init__
  /\ (forall k, v = VKind k -> (0 <= width)%Z ->
      exists cfg text,
        dict_get ConnectionType_eqb (connection_configs __init__) k = Some cfg
        /\ generate_ascii_pinout __init__ v width = Ok text
        /\ List.length (PyStr.split_lines text) = 17 + List.length (pins cfg)
        /\ PyStr.len (hd "" (PyStr.split_lines text)) = Z.to_nat width + 2).
Proof.
  intros g1 first g2 second.
  assert (E1 : g1 = __init__) by apply invoke_all_self.
  assert (E2 : g2 = __init__).
  { unfold g2. rewrite invoke_all_self. unfold first. simpl. exact E1. }
  unfold second, first. rewrite E2, E1. simpl.
  repeat split.
  intros k -> Hw.
  destruct (init_profiles k) as (cfg & known & Hd & Hrows & Hinfo & _ & Hone).
  destruct (boxed_pinout_lines __init__ k cfg width known Hw Hd Hrows Hinfo)
    as (Etext & Elines).
  exists cfg. eexists. split; [exact known|]. split; [exact Etext|].
  rewrite Elines. split.
  - rewrite ascii_art_length, Hone. lia.
  - change (hd "" (ascii_art __init__ cfg width
                     (PyStr.format_center (Z.to_nat width) (title k))
                     (PyStr.format_center (Z.to_nat width) (description cfg))))
      with ("╔" ++ separator width ++ "╗").
    rewrite rule_len. change (PyStr.len "╔") with 1.
    change (PyStr.len "╗") with 1. lia.
Qed.

Lemma boxed_pinout_is_repeatable_witness :
  exists cfg text,
    dict_get ConnectionType_eqb (connection_configs __init__) DIRECT = Some cfg
    /\ generate_ascii_pinout __init__ (VKind DIRECT) 60 = Ok text
    /\ List.length (PyStr.split_lines text) = 17 + List.length (pins cfg)
    /\ PyStr.len (hd "" (PyStr.split_lines text)) = Z.to_nat 60 + 2.
Proof.
  apply (proj2 (proj2 (proj2
           (boxed_pinout_is_repeatable
              [Call_get_pin_info 3; Call_generate_ascii_pinout (VKind USB) 10]
              [Call_generate_full_pinout_reference]
              (VKind DIRECT) 60))) DIRECT eq_refl).
  lia.
Defined.

(** * The pin catalog *)

(** C4. [get_pin_info] is a lookup that returns an optional label and has no
    way to raise: pin 1 is the 3.3 V supply, pin 9999 is not found, every
    index outside 1..18 is not found, every index inside has a label, and a
    call answers with that optional label on every integer. *)
Theorem get_pin_info_never_fails (n : Z) :
  get_pin_info __init__ 1 = Some "VCC (3.3V)"
  /\ get_pin_info __init__ 9999 = None
  /\ ((n < 1 \/ 18 < n)%Z -> get_pin_info __init__ n = None)
  /\ ((1 <= n <= 18)%Z -> exists label, get_pin_info __init__ n = Some label)
  /\ invoke __init__ (Call_get_pin_info n)
     = (__init__, Label (get_pin_info __init__ n)).
Proof.
  split; [reflexivity|]. split; [reflexivity|]. split; [|split].
  - intros out. unfold get_pin_info. cbn -[Z.eqb].
    repeat match goal with
           | |- context [Z.eqb ?a n] => destruct (Z.eqb_spec a n); [lia|]
           end.
    reflexivity.
  - intros inside.
    assert (n = 1 \/ n = 2 \/ n = 3 \/ n = 4 \/ n = 5 \/ n = 6 \/ n = 7
            \/ n = 8 \/ n = 9 \/ n = 10 \/ n = 11 \/ n = 12 \/ n = 13
            \/ n = 14 \/ n = 15 \/ n = 16 \/ n = 17 \/ n = 18)%Z as cases
      by lia.
    repeat (destruct cases as [->|cases]; [eexists; reflexivity|]).
    subst n. eexists; reflexivity.
  - reflexivity.
Qed.

Lemma get_pin_info_never_fails_witness :
  get_pin_info __init__ (-4) = None
  /\ exists label, get_pin_info __init__ 18 = Some label.
Proof.
  split.
  - apply (proj1 (proj2 (proj2 (get_pin_info_never_fails (-4))))). lia.
  - apply (proj1 (proj2 (proj2 (proj2 (get_pin_info_never_fails 18))))). lia.
Defined.

Lemma rule_lacks (n : string) (c : ascii) (l r : string) (width : Z) :
  PyStr.any_char (Ascii.eqb c) n = true ->
  PyStr.any_char (Ascii.eqb c) l = false ->
  PyStr.any_char (Ascii.eqb c) "═" = false ->
  PyStr.any_char (Ascii.eqb c) r = false ->
  PyStr.contains n (l ++ separator width ++ r) = false.
Proof.
  intros Hn Hl Hs Hr. apply (contains_char (Ascii.eqb c)); [exact Hn|].
  unfold separator.
  now rewrite !any_char_append, Hl, Hr, any_char_replicate.
Qed.

Lemma field_lacks (n : string) (c : ascii) (l s r : string) (w : nat) :
  PyStr.any_char (Ascii.eqb c) n = true ->
  PyStr.any_char (Ascii.eqb c) l = false ->
  PyStr.any_char (Ascii.eqb c) " " = false ->
  PyStr.any_char (Ascii.eqb c) s = false ->
  PyStr.any_char (Ascii.eqb c) r = false ->
  PyStr.contains n (l ++ PyStr.format_center w s ++ r) = false.
Proof.
  intros Hn Hl Hsp Hs Hr. apply (contains_char (Ascii.eqb c)); [exact Hn|].
  unfold PyStr.format_center, PyStr.spaces.
  now rewrite !any_char_append, Hl, Hr, Hs, !any_char_replicate.
Qed.

(** No line of a boxed pinout of the four kinds holds the fallback word:
    the borders and the two centred fields have no letter w at all, the
    other lines are fixed. *)
Lemma boxed_pinout_lacks_unknown (k : ConnectionType) (cfg : config) (width : Z) :
  dict_get ConnectionType_eqb (connection_configs __init__) k = Some cfg ->
  PyStr.contains "Unknown"
    (PyStr.join PyStr.nl
       (ascii_art __init__ cfg width
          (PyStr.format_center (Z.to_nat width) (title k))
          (PyStr.format_center (Z.to_nat width) (description cfg))))
  = false.
Proof.
  intros known.
  apply contains_join_lines; [reflexivity | discriminate |].
  unfold ascii_art. rewrite !forallb_app. cbn [forallb].
  rewrite !(rule_lacks "Unknown" "w") by reflexivity.
  destruct k; injection known as <-;
    rewrite !(field_lacks "Unknown" "w") by reflexivity;
    vm_compute; reflexivity.
Qed.

(** C7. Every integer pin reference of the four profiles is a key of the
    catalog: the lookup finds a label, the row is rendered with that label
    and not with the fallback word; and at every width that is not negative
    the boxed pinout of the kind is produced without the word Unknown
    anywhere in it. *)
Theorem profile_pins_are_in_catalog
  (k : ConnectionType) (cfg : config) (n : Z) (role : string) (width : Z) :
  dict_get ConnectionType_eqb (connection_configs __init__) k = Some cfg ->
  (In (PinInt n, role) (pins cfg) ->
   exists label,
     get_pin_info __init__ n = Some label
     /\ In (n, label) (flipper_gpio_pins __init__)
     /\ dict_get_default Z.eqb (flipper_gpio_pins __init__) n "Unknown" = label
     /\ label <> "Unknown")
  /\ ((0 <= width)%Z ->
      exists text,
        generate_ascii_pinout __init__ (VKind k) width = Ok text
        /\ PyStr.contains "Unknown" text = false).
Proof.
  intros known. split.
  - intros Hin.
    destruct k; injection known as <-; simpl in Hin;
      repeat (destruct Hin as [E|Hin];
              [ first
                  [ discriminate E
                  | injection E as <- <-;
                    eexists; split; [reflexivity|];
                    split; [simpl; tauto|];
                    split; [reflexivity | discriminate] ]
              | ]).
    all: elim Hin.
  - intros Hw. eexists. split.
    + exact (generate_ascii_pinout_ok __init__ k cfg width known Hw).
    + now apply boxed_pinout_lacks_unknown.
Qed.

Lemma profile_pins_are_in_catalog_witness :
  (exists label,
     get_pin_info __init__ 12 = Some label
     /\ In (12%Z, label) (flipper_gpio_pins __init__)
     /\ dict_get_default Z.eqb (flipper_gpio_pins __init__) 12%Z "Unknown" = label
     /\ label <> "Unknown")
  /\ (exists text,
        generate_ascii_pinout __init__ (VKind DIRECT) 60 = Ok text
        /\ PyStr.contains "Unknown" text = false).
Proof.
  destruct (profile_pins_are_in_catalog DIRECT _ 12 "GPIO3" 60 eq_refl)
    as [inside whole].
  split; [apply inside; simpl; tauto | apply whole; lia].
Defined.

(** * The wiring diagram *)

(** C5. The wiring diagram of UART is returned; read line by line it holds
    exactly four pin pairings, TX with RX, RX with TX, VCC with VCC (the
    device side written with its voltage) and GND with GND, and the text
    contains 115200 and 8N1. *)
Theorem uart_wiring_diagram :
  exists text,
    generate_connection_diagram __init__ (VKind UART) = Ok text
    /\ PyStr.split_lines text
       = "" :: "UART Verbindungsdiagramm:" :: PyStr.replicate 50 "="
            :: wiring_body UART
    /\ Read.pairings text
       = [("TX", "RX"); ("RX", "TX"); ("VCC", "VCC (3.3V)"); ("GND", "GND")]
    /\ map (fun p => (fst p, Read.first_word (snd p))) (Read.pairings text)
       = [("TX", "RX"); ("RX", "TX"); ("VCC", "VCC"); ("GND", "GND")]
    /\ PyStr.contains "115200" text = true
    /\ PyStr.contains "8N1" text = true.
Proof.
  eexists. split; [reflexivity|].
  repeat split; vm_compute; reflexivity.
Qed.

(** * The full reference *)

(** C6. The full reference takes the generator alone. Read line by line it
    is a box: a top border, a title and a rule, then one row per catalog
    entry, then a rule, a heading, four notes and the bottom border. The
    pin numbers read off its lines are 1 to 18, each once and ascending,
    and 18 is the largest index of the catalog. *)
Theorem full_reference_lists_every_pin :
  let lines := PyStr.split_lines (generate_full_pinout_reference __init__) in
  exists top heading_line rule rows rule2 notes_heading notes bottom,
    lines = ([top; heading_line; rule] ++ rows
             ++ [rule2; notes_heading] ++ notes ++ [bottom])%list
    /\ rows = map reference_line (flipper_gpio_pins __init__)
    /\ map fst (flipper_gpio_pins __init__)
       = map Z.of_nat (seq 1 18)
    /\ Read.pin_numbers rows = map Z.of_nat (seq 1 18)
    /\ Read.pin_numbers lines = map Z.of_nat (seq 1 18)
    /\ List.length notes = 4
    /\ forallb (prefix "║• ") notes = true
    /\ PyStr.contains "Wichtige Hinweise:" notes_heading = true.
Proof.
  intros lines.
  eexists _, _, _, (map reference_line (flipper_gpio_pins __init__)),
    _, _, [_; _; _; _], _.
  split; [vm_compute; reflexivity|].
  repeat split; vm_compute; reflexivity.
Qed.

(** * The command line *)

Lemma lower_char_idempotent (c : ascii) :
  PyStr.lower_char (PyStr.lower_char c) = PyStr.lower_char c.
Proof. destruct c as [[] [] [] [] [] [] [] []]; reflexivity. Qed.

Lemma lower_char_upper_char (c : ascii) :
  PyStr.lower_char (PyStr.upper_char c) = PyStr.lower_char c.
Proof. destruct c as [[] [] [] [] [] [] [] []]; reflexivity. Qed.

(** Strings that differ in the case of ASCII letters lower to the same
    string. *)
Lemma case_variant_lower (a b : string) :
  Read.case_variant a b = true -> PyStr.lower a = PyStr.lower b.
Proof.
  revert b; induction a as [|x a IH]; intros [|y b] H; try discriminate H.
  - reflexivity.
  - cbn [Read.case_variant] in H. apply andb_true_iff in H.
    destruct H as [Hc Hs].
    unfold PyStr.lower. cbn [PyStr.map_chars]. f_equal.
    + apply orb_true_iff in Hc. destruct Hc as [Hc|Hc].
      * apply orb_true_iff in Hc. destruct Hc as [Hc|Hc];
          apply Ascii.eqb_eq in Hc; subst x;
          [reflexivity | apply lower_char_upper_char].
      * apply Ascii.eqb_eq in Hc; subst x. apply lower_char_idempotent.
    + now apply IH.
Qed.

(** C10. The argument is lowered before it is compared, so every spelling
    of the keyword full in mixed case prints the full reference, and the
    script ends with status 0. *)
Theorem full_keyword_any_case (prog arg : string) (rest : list string) :
  Read.case_variant arg "full" = true ->
  PyStr.lower arg = "full"
  /\ run_script (prog :: arg :: rest)
     = ([generate_full_pinout_reference __init__], 0%Z).
Proof.
  intros H. apply case_variant_lower in H.
  change (PyStr.lower "full") with "full" in H.
  split; [exact H|].
  unfold run_script, run_script_with, main_with. rewrite H. reflexivity.
Qed.

Lemma full_keyword_any_case_witness :
  PyStr.lower "FuLL" = "full"
  /\ run_script ["pinout_generator.py"; "FuLL"]
     = ([generate_full_pinout_reference __init__], 0%Z).
Proof.
  apply (full_keyword_any_case "pinout_generator.py" "FuLL" []).
  reflexivity.
Defined.

Lemma verbatim_String (c : ascii) (s : string) :
  Read.verbatim (String c s) = true ->
  PyStr.lower_char c = c
  /\ PyStr.repr_char PyStr.squote c = String c ""
  /\ Ascii.eqb PyStr.squote c = false
  /\ Read.verbatim s = true.
Proof.
  unfold Read.verbatim. cbn [PyStr.any_char]. intros H.
  apply negb_true_iff, orb_false_iff in H. destruct H as [Hc Hs].
  rewrite Hs. repeat split.
  all: clear Hs; revert Hc; destruct c as [[] [] [] [] [] [] [] []];
    vm_compute; intros Hc; first [reflexivity | discriminate Hc].
Qed.

Lemma verbatim_lower (s : string) :
  Read.verbatim s = true -> PyStr.lower s = s.
Proof.
  induction s as [|c s IH]; intros H; [reflexivity|].
  apply verbatim_String in H. destruct H as (Hl & _ & _ & Hs).
  unfold PyStr.lower. cbn [PyStr.map_chars]. rewrite Hl. f_equal.
  now apply IH.
Qed.

Lemma verbatim_repr (s : string) :
  Read.verbatim s = true ->
  PyStr.repr s = String PyStr.squote (s ++ String PyStr.squote "").
Proof.
  intros H.
  assert (Hq : PyStr.any_char (Ascii.eqb PyStr.squote) s = false).
  { induction s as [|c s IH]; [reflexivity|].
    apply verbatim_String in H. destruct H as (_ & _ & Hc & Hs).
    cbn [PyStr.any_char]. now rewrite Hc, IH. }
  unfold PyStr.repr. rewrite Hq. cbn [andb]. do 2 f_equal.
  clear Hq. induction s as [|c s IH]; [reflexivity|].
  apply verbatim_String in H. destruct H as (_ & Hr & _ & Hs).
  cbn [PyStr.repr_body]. rewrite Hr, IH by exact Hs. reflexivity.
Qed.

(** C9, refuted as stated: for the argument XYZ, which is no keyword in any
    case, neither printed line contains XYZ (the message shows it lowered);
    for an argument with a backslash between two letters neither printed
    line contains the argument (the message shows the backslash doubled). *)
Lemma invalid_argument_not_echoed :
  let odd := String "a" (String PyStr.backslash "b") in
  Read.case_variant "XYZ" "full" = false
  /\ forallb (fun k => negb (Read.case_variant "XYZ" (value k)))
       ConnectionType_members = true
  /\ fst (run_script ["pinout_generator.py"; "XYZ"])
     = [ "Fehler: 'xyz' is not a valid ConnectionType";
         "Verfügbare Verbindungstypen: uart, ftdi, direct, usb" ]
  /\ forallb (fun line => negb (PyStr.contains "XYZ" line))
       (fst (run_script ["pinout_generator.py"; "XYZ"])) = true
  /\ Read.case_variant odd "full" = false
  /\ forallb (fun k => negb (Read.case_variant odd (value k)))
       ConnectionType_members = true
  /\ forallb (fun line => negb (PyStr.contains odd line))
       (fst (run_script ["pinout_generator.py"; odd])) = true.
Proof. repeat split; vm_compute; reflexivity. Qed.

Lemma verbatim_is_ascii (s : string) :
  Read.verbatim s = true -> PyStr.is_ascii s = true.
Proof.
  unfold Read.verbatim, PyStr.is_ascii.
  induction s as [|c s IH]; [reflexivity|].
  cbn [PyStr.any_char]. intros H.
  apply negb_true_iff, orb_false_iff in H. destruct H as [Hc Hs].
  apply negb_true_iff, orb_false_iff. split.
  - clear - Hc. revert Hc. destruct c as [[] [] [] [] [] [] [] []];
      vm_compute; intros Hc; first [reflexivity | discriminate Hc].
  - apply negb_true_iff. apply IH. now rewrite Hs.
Qed.

(** C9, amended. Whatever Python's [str.lower] and [repr] make of the
    argument: when the lowered argument is neither full nor the value of a
    connection type, the script on a standard output that takes every text
    prints two lines and ends with status 0, an error line that shows the
    lowered argument as [repr] writes it, and the line that lists uart,
    ftdi, direct and usb. As the two functions are
    what [PyStr.lower] and [PyStr.repr] are on ASCII strings, the error line
    contains the argument itself whenever the argument is made of ASCII
    characters with no upper-case letter and nothing that [repr] escapes. *)
Theorem invalid_argument_is_reported
  (lower repr : string -> string) (prog arg : string) (rest : list string) :
  lower arg <> "full" ->
  (forall k, lower arg <> value k) ->
  let error_line :=
    "Fehler: " ++ repr (lower arg) ++ " is not a valid ConnectionType" in
  let kinds_line := "Verfügbare Verbindungstypen: uart, ftdi, direct, usb" in
  run_script_with accepting lower repr (prog :: arg :: rest)
  = ([error_line; kinds_line], 0%Z)
  /\ ((forall s, PyStr.is_ascii s = true -> lower s = PyStr.lower s) ->
      (forall s, PyStr.is_ascii s = true -> repr s = PyStr.repr s) ->
      Read.verbatim arg = true ->
      PyStr.contains arg error_line = true)
  /\ Forall (fun k => PyStr.contains (value k) kinds_line = true)
       ConnectionType_members.
Proof.
  intros not_full not_kind error_line kinds_line.
  split; [|split].
  - unfold run_script_with, main_with.
    destruct (String.eqb_spec (lower arg) "full") as [E|_];
      [contradiction|].
    unfold try_except_ValueError, io_bind, lift, ConnectionType_of_value_with.
    cbn [find ConnectionType_members].
    repeat match goal with
           | |- context [String.eqb (value ?k) (lower arg)] =>
               destruct (String.eqb_spec (value k) (lower arg)) as [E|_];
               [now elim (not_kind k)|]
           end.
    reflexivity.
  - intros lower_ascii repr_ascii plain. subst error_line.
    pose proof (verbatim_is_ascii arg plain) as ascii.
    rewrite (lower_ascii arg ascii), (verbatim_lower arg plain).
    rewrite (repr_ascii arg ascii), (verbatim_repr arg plain).
    apply contains_append_r.
    change (String PyStr.squote (arg ++ String PyStr.squote "")
              ++ " is not a valid ConnectionType")
      with (String PyStr.squote ""
              ++ (arg ++ String PyStr.squote "")
              ++ " is not a valid ConnectionType").
    apply contains_append_r. rewrite append_assoc. apply contains_here.
  - repeat constructor.
Qed.

Lemma invalid_argument_is_reported_witness :
  run_script_with accepting PyStr.lower PyStr.repr
    ["pinout_generator.py"; "xyz"]
  = ([ "Fehler: 'xyz' is not a valid ConnectionType";
       "Verfügbare Verbindungstypen: uart, ftdi, direct, usb" ], 0%Z)
  /\ PyStr.contains "xyz" "Fehler: 'xyz' is not a valid ConnectionType" = true.
Proof.
  assert (not_full : PyStr.lower "xyz" <> "full") by discriminate.
  assert (not_kind : forall k, PyStr.lower "xyz" <> value k)
    by (intros k; destruct k; discriminate).
  destruct (invalid_argument_is_reported PyStr.lower PyStr.repr
              "pinout_generator.py" "xyz" [] not_full not_kind)
    as (E & C & _).
  split; [exact E|].
  exact (C (fun s _ => eq_refl) (fun s _ => eq_refl) eq_refl).
Defined.

(** * Field widths *)

Lemma len_spaces (n : nat) : PyStr.len (PyStr.spaces n) = n.
Proof.
  unfold PyStr.spaces. rewrite len_replicate.
  change (PyStr.len " ") with 1. lia.
Qed.

Lemma len_ljust (w : nat) (s : string) :
  PyStr.len (PyStr.ljust w s) = Nat.max w (PyStr.len s).
Proof. unfold PyStr.ljust. rewrite len_append, len_spaces. lia. Qed.

Lemma len_rjust (w : nat) (s : string) :
  PyStr.len (PyStr.rjust w s) = Nat.max w (PyStr.len s).
Proof. unfold PyStr.rjust. rewrite len_append, len_spaces. lia. Qed.

Lemma div2_halves (p : nat) :
  Nat.div2 p <= p - Nat.div2 p <= Nat.div2 p + 1.
Proof.
  pose proof (Nat.div2_odd p) as E.
  destruct (Nat.odd p); simpl in E; lia.
Qed.

Lemma len_format_center (w : nat) (s : string) :
  PyStr.len (PyStr.format_center w s) = Nat.max w (PyStr.len s).
Proof.
  unfold PyStr.format_center. rewrite !len_append, !len_spaces.
  pose proof (div2_halves (w - PyStr.len s)). lia.
Qed.

(** X4. For any generator, a configured kind and a width that is not
    negative, the second and third line of the boxed pinout hold the title
    and the description between two runs of blanks whose lengths differ by
    at most one, the longer on the right, and which together fill the width;
    a text longer than the width is not cut, so that line is then wider than
    the border. *)
Theorem title_and_description_are_centred
  (self : PinoutGenerator) (k : ConnectionType) (cfg : config) (width : Z) :
  dict_get ConnectionType_eqb (connection_configs self) k = Some cfg ->
  (0 <= width)%Z ->
  exists top lt rt ld rd rest,
    generate_ascii_pinout self (VKind k) width
    = Ok (PyStr.join PyStr.nl
            (top
             :: ("║" ++ PyStr.spaces lt ++ title k ++ PyStr.spaces rt ++ "║")
             :: ("║" ++ PyStr.spaces ld ++ description cfg ++ PyStr.spaces rd
                 ++ "║")
             :: rest))
    /\ PyStr.len top = Z.to_nat width + 2
    /\ lt <= rt <= lt + 1
    /\ lt + rt = Z.to_nat width - PyStr.len (title k)
    /\ ld <= rd <= ld + 1
    /\ ld + rd = Z.to_nat width - PyStr.len (description cfg)
    /\ PyStr.len ("║" ++ PyStr.spaces lt ++ title k ++ PyStr.spaces rt ++ "║")
       = Nat.max (Z.to_nat width) (PyStr.len (title k)) + 2.
Proof.
  intros known Hw.
  rewrite (generate_ascii_pinout_ok self k cfg width known Hw).
  unfold ascii_art, PyStr.format_center. cbn [app].
  set (pt := Z.to_nat width - PyStr.len (title k)).
  set (pd := Z.to_nat width - PyStr.len (description cfg)).
  rewrite !append_assoc.
  exists ("╔" ++ separator width ++ "╗"),
    (Nat.div2 pt), (pt - Nat.div2 pt), (Nat.div2 pd), (pd - Nat.div2 pd).
  eexists. split; [reflexivity|].
  pose proof (div2_halves pt). pose proof (div2_halves pd).
  repeat split; try lia.
  - rewrite rule_len. change (PyStr.len "╔") with 1.
    change (PyStr.len "╗") with 1. lia.
  - rewrite !len_append, !len_spaces. change (PyStr.len "║") with 1.
    subst pt. lia.
Qed.

Lemma title_and_description_are_centred_witness :
  exists top lt rt ld rd rest,
    generate_ascii_pinout __init__ (VKind USB) 30
    = Ok (PyStr.join PyStr.nl
            (top
             :: ("║" ++ PyStr.spaces lt ++ title USB ++ PyStr.spaces rt ++ "║")
             :: ("║" ++ PyStr.spaces ld ++ "USB Verbindung" ++ PyStr.spaces rd
                 ++ "║")
             :: rest))
    /\ PyStr.len top = Z.to_nat 30 + 2
    /\ lt <= rt <= lt + 1
    /\ lt + rt = Z.to_nat 30 - PyStr.len (title USB)
    /\ ld <= rd <= ld + 1
    /\ ld + rd = Z.to_nat 30 - PyStr.len "USB Verbindung"
    /\ PyStr.len ("║" ++ PyStr.spaces lt ++ title USB ++ PyStr.spaces rt ++ "║")
       = Nat.max (Z.to_nat 30) (PyStr.len (title USB)) + 2.
Proof.
  apply (title_and_description_are_centred __init__ USB _ 30 eq_refl).
  lia.
Defined.

(** X5. A pin row is as wide as its fields need and no field is cut: the
    row of an integer reference has 13 fixed code points plus the pin number
    padded to 2, the role padded to 10 and the label padded to 25; the row
    of a named reference has 6 fixed code points plus the name and the role
    padded to 35. The width argument of the renderer plays no part. *)
Theorem pin_row_width (gpio : list (Z * string)) (role : string) :
  (forall n,
     PyStr.len (pin_line gpio (PinInt n, role))
     = 13 + Nat.max 2 (PyStr.len (PyStr.of_Z n))
       + Nat.max 10 (PyStr.len role)
       + Nat.max 25 (PyStr.len (dict_get_default Z.eqb gpio n "Unknown")))
  /\ (forall nm,
        PyStr.len (pin_line gpio (PinName nm, role))
        = 6 + PyStr.len nm + Nat.max 35 (PyStr.len role)).
Proof.
  split.
  - intros n. rewrite pin_line_int.
    rewrite !len_append, len_rjust, !len_ljust.
    change (PyStr.len "║ Pin ") with 6. change (PyStr.len ": ") with 2.
    change (PyStr.len " → ") with 3. change (PyStr.len " ║") with 2. lia.
  - intros nm. rewrite pin_line_name.
    rewrite !len_append, len_ljust.
    change (PyStr.len "║ ") with 2. change (PyStr.len ": ") with 2.
    change (PyStr.len " ║") with 2. lia.
Qed.

(** * More on the renderers *)

(** X9. For any generator and any configured kind, the boxed pinout is
    returned at every width that is not negative and raises at every
    negative width: above the least index -2^63 the format spec of the
    centred title is refused for its sign, at -2^63 for its digits, and
    below it the repetition of line 77 is refused before any formatting. A
    hashable selector without a configuration is refused first, whatever
    the width, with the error that shows it, and so is a selector that
    cannot be hashed. *)
Theorem boxed_pinout_fails_on_negative_width_only
  (self : PinoutGenerator) (a : argument) (width : Z) :
  (forall k cfg,
     a = Hashable (VKind k) ->
     dict_get ConnectionType_eqb (connection_configs self) k = Some cfg ->
     ((0 <= width)%Z ->
      exists text, generate_ascii_pinout self a width = Ok text)
     /\ ((- 2 ^ 63 < width < 0)%Z ->
         generate_ascii_pinout self a width
         = Raise (ValueError "Sign not allowed in string format specifier"))
     /\ (width = (- 2 ^ 63)%Z ->
         generate_ascii_pinout self a width
         = Raise (ValueError "Too many decimal digits in format string"))
     /\ ((width < - 2 ^ 63)%Z ->
         generate_ascii_pinout self a width
         = Raise (OverflowError
                    "cannot fit 'int' into an index-sized integer")))
  /\ (forall v shown, a = Hashable v -> configs_get self v = None ->
      py_str v = Ok shown ->
      generate_ascii_pinout self a width
      = Raise (ValueError ("Unbekannter Verbindungstyp: " ++ shown)))
  /\ (forall type_name, a = Unhashable type_name ->
      generate_ascii_pinout self a width
      = Raise (TypeError ("unhashable type: '" ++ type_name ++ "'"))).
Proof.
  split; [|split].
  - intros k cfg -> known.
    assert (low : (- 2 ^ 63 < 0)%Z) by reflexivity.
    split; [|split; [|split]].
    + intros Hw. eexists.
      exact (generate_ascii_pinout_ok self k cfg width known Hw).
    + intros [gt neg].
      exact (proj1 (generate_ascii_pinout_negative self k cfg width known neg)
               gt).
    + intros eq.
      refine (proj1 (proj2 (generate_ascii_pinout_negative
                              self k cfg width known _)) eq).
      lia.
    + intros lt.
      refine (proj2 (proj2 (generate_ascii_pinout_negative
                              self k cfg width known _)) lt).
      lia.
  - intros v shown -> none text. unfold generate_ascii_pinout.
    rewrite none. unfold unknown_connection_type. now rewrite text.
  - intros type_name ->. reflexivity.
Qed.

(** A generator that configures UART alone: FTDI is refused even at a
    negative width, UART fails on the width. *)
Lemma boxed_pinout_fails_on_negative_width_only_witness :
  let bare := {| pins := []; description := "bare";
                 baudrate := None; voltage := None;
                 protocol := None; note := None |} in
  let self := {| flipper_gpio_pins := [];
                 connection_configs := [(UART, bare)] |} in
  generate_ascii_pinout self (VKind UART) (-3)
  = Raise (ValueError "Sign not allowed in string format specifier")
  /\ generate_ascii_pinout self (VKind UART) (- 2 ^ 63)
     = Raise (ValueError "Too many decimal digits in format string")
  /\ generate_ascii_pinout self (VKind UART) (- 2 ^ 63 - 1)
     = Raise (OverflowError "cannot fit 'int' into an index-sized integer")
  /\ generate_ascii_pinout self (VKind FTDI) (-3)
     = Raise (ValueError "Unbekannter Verbindungstyp: ConnectionType.FTDI").
Proof.
  intros bare self.
  split; [|split; [|split]].
  - refine (proj1 (proj2 (proj1 (boxed_pinout_fails_on_negative_width_only
                                   self (VKind UART) (-3))
                            UART bare eq_refl eq_refl)) _).
    vm_compute. split; reflexivity.
  - exact (proj1 (proj2 (proj2 (proj1
             (boxed_pinout_fails_on_negative_width_only
                self (VKind UART) (- 2 ^ 63))
             UART bare eq_refl eq_refl))) eq_refl).
  - refine (proj2 (proj2 (proj2 (proj1
              (boxed_pinout_fails_on_negative_width_only
                 self (VKind UART) (- 2 ^ 63 - 1))
              UART bare eq_refl eq_refl))) _).
    reflexivity.
  - exact (proj1 (proj2 (boxed_pinout_fails_on_negative_width_only
                           self (VKind FTDI) (-3)))
             (VKind FTDI) "ConnectionType.FTDI" eq_refl eq_refl eq_refl).
Defined.

(** X1. Looking a connection type up by value and taking the value of a
    member undo each other; the strings the lookup accepts are the ones
    [list_available_connections] returns, which are uart, ftdi, direct and
    usb in that order, and any other string is refused with a message that
    starts with what Python's [repr] makes of it. *)
Theorem connection_type_values
  (repr : string -> string) (self : PinoutGenerator) (v : string) :
  list_available_connections self = ["uart"; "ftdi"; "direct"; "usb"]
  /\ (forall k, ConnectionType_of_value_with repr (value k) = Ok k)
  /\ (forall k, ConnectionType_of_value_with repr v = Ok k -> value k = v)
  /\ (In v (list_available_connections self)
      <-> exists k, ConnectionType_of_value_with repr v = Ok k)
  /\ (~ In v (list_available_connections self) ->
      ConnectionType_of_value_with repr v
      = Raise (ValueError (repr v ++ " is not a valid ConnectionType"))).
Proof.
  assert (cases : (exists k, v = value k
                             /\ ConnectionType_of_value_with repr v = Ok k)
                  \/ ((forall k, v <> value k)
                      /\ ConnectionType_of_value_with repr v
                         = Raise (ValueError
                                    (repr v
                                     ++ " is not a valid ConnectionType")))).
  { unfold ConnectionType_of_value_with. cbn [find ConnectionType_members].
    destruct (String.eqb_spec (value UART) v) as [<-|n1];
      [left; now exists UART|].
    destruct (String.eqb_spec (value FTDI) v) as [<-|n2];
      [left; now exists FTDI|].
    destruct (String.eqb_spec (value DIRECT) v) as [<-|n3];
      [left; now exists DIRECT|].
    destruct (String.eqb_spec (value USB) v) as [<-|n4];
      [left; now exists USB|].
    right. split; [|reflexivity]. intros k E. destruct k; congruence. }
  split; [reflexivity|]. split; [now intros []|]. split; [|split].
  - intros k E. destruct cases as [(k' & -> & E')|(_ & R)].
    + rewrite E' in E. now injection E as ->.
    + rewrite R in E. discriminate E.
  - split.
    + intros Hin. destruct cases as [(k & _ & E)|(no & _)]; [now exists k|].
      simpl in Hin.
      destruct Hin as [E|[E|[E|[E|[]]]]];
        [elim (no UART) | elim (no FTDI) | elim (no DIRECT) | elim (no USB)];
        now symmetry.
    + intros (k & E). destruct cases as [(k' & -> & _)|(_ & R)].
      * destruct k'; simpl; tauto.
      * rewrite R in E. discriminate E.
  - intros Hnot. destruct cases as [(k & -> & _)|(_ & R)]; [|exact R].
    elim Hnot. destruct k; simpl; tauto.
Qed.

Lemma connection_type_values_witness :
  value FTDI = "ftdi"
  /\ ConnectionType_of_value_with PyStr.repr "FTDI"
     = Raise (ValueError "'FTDI' is not a valid ConnectionType").
Proof.
  split.
  - apply (proj1 (proj2 (proj2 (connection_type_values
                                  PyStr.repr __init__ "ftdi"))) FTDI).
    reflexivity.
  - apply (proj2 (proj2 (proj2 (proj2 (connection_type_values
                                         PyStr.repr __init__ "FTDI"))))).
    simpl. intros [E|[E|[E|[E|[]]]]]; discriminate E.
Defined.

(** X7. The two renderers agree on the wiring: for each of the four kinds,
    every physical pin of the profile is named in the wiring diagram of that
    kind. *)
Theorem diagram_names_every_profile_pin
  (k : ConnectionType) (cfg : config) (n : Z) (role : string) :
  dict_get ConnectionType_eqb (connection_configs __init__) k = Some cfg ->
  In (PinInt n, role) (pins cfg) ->
  exists text,
    generate_connection_diagram __init__ (VKind k) = Ok text
    /\ diagram_names_pin text n = true.
Proof.
  intros known Hin.
  destruct k; injection known as <-; simpl in Hin;
    repeat (destruct Hin as [E|Hin];
            [ first
                [ discriminate E
                | injection E as <- <-;
                  eexists; split; [reflexivity | vm_compute; reflexivity] ]
            | ]).
  all: elim Hin.
Qed.

Lemma diagram_names_every_profile_pin_witness :
  exists text,
    generate_connection_diagram __init__ (VKind USB) = Ok text
    /\ diagram_names_pin text 18 = true.
Proof.
  apply (diagram_names_every_profile_pin USB _ 18 "5V" eq_refl).
  simpl. tauto.
Defined.

(** * More on the command line *)

(** X2. Given the name of a connection type in any mix of upper and lower
    case, the script prints the boxed pinout of that type at width 60 and
    then its wiring diagram, nothing else, and ends with status 0. *)
Theorem kind_name_prints_pinout_and_wiring
  (prog arg : string) (rest : list string) (k : ConnectionType) :
  Read.case_variant arg (value k) = true ->
  exists pinout wiring,
    generate_ascii_pinout __init__ (VKind k) 60 = Ok pinout
    /\ generate_connection_diagram __init__ (VKind k) = Ok wiring
    /\ run_script (prog :: arg :: rest) = ([pinout; wiring], 0%Z).
Proof.
  intros H. apply case_variant_lower in H.
  unfold run_script, run_script_with, main_with. rewrite H.
  destruct k; eexists; eexists;
    (split; [reflexivity|]); (split; [reflexivity|]);
    vm_compute; reflexivity.
Qed.

Lemma kind_name_prints_pinout_and_wiring_witness :
  exists pinout wiring,
    generate_ascii_pinout __init__ (VKind DIRECT) 60 = Ok pinout
    /\ generate_connection_diagram __init__ (VKind DIRECT) = Ok wiring
    /\ run_script ["pinout_generator.py"; "Direct"] = ([pinout; wiring], 0%Z).
Proof.
  apply (kind_name_prints_pinout_and_wiring
           "pinout_generator.py" "Direct" [] DIRECT).
  reflexivity.
Defined.

Lemma write_all_accepted (stdout : stream) (todo : list string)
  (written : string) :
  (forall piece, stdout piece = None) ->
  write_all stdout todo written = write_all accepting todo written.
Proof.
  intros H. revert written.
  induction todo as [|piece rest IH]; intros written; [reflexivity|].
  cbn [write_all]. rewrite H. unfold accepting at 1. apply IH.
Qed.

Lemma print_accepted (stdout : stream) (args out : list string) :
  (forall piece, stdout piece = None) ->
  print stdout args out = print accepting args out.
Proof.
  intros H. unfold print.
  now rewrite (write_all_accepted stdout _ _ H), H.
Qed.

Lemma io_bind_ext {A B : Type} (m m' : io A) (f f' : A -> io B) :
  (forall out, m out = m' out) ->
  (forall a out, f a out = f' a out) ->
  forall out, io_bind m f out = io_bind m' f' out.
Proof.
  intros Hm Hf out. unfold io_bind. rewrite Hm.
  destruct (m' out) as [[a|e] out1]; [apply Hf | reflexivity].
Qed.

Lemma try_except_ValueError_ext (body body' : io unit)
  (handler handler' : string -> io unit) :
  (forall out, body out = body' out) ->
  (forall msg out, handler msg out = handler' msg out) ->
  forall out,
    try_except_ValueError body handler out
    = try_except_ValueError body' handler' out.
Proof.
  intros Hb Hh out. unfold try_except_ValueError. rewrite Hb.
  destruct (body' out) as [[u|[msg|msg|msg|msg]] out1];
    first [apply Hh | reflexivity].
Qed.

Lemma main_accepted (stdout : stream) (lower repr : string -> string)
  (argv out : list string) :
  (forall piece, stdout piece = None) ->
  main_with stdout lower repr argv out = main_with accepting lower repr argv out.
Proof.
  intros H.
  pose proof (fun args out => print_accepted stdout args out H) as P.
  unfold main_with.
  destruct argv as [|prog [|arg rest]].
  - repeat (apply io_bind_ext; [|intros ?]; intros ?); apply P.
  - repeat (apply io_bind_ext; [|intros ?]; intros ?); apply P.
  - destruct (String.eqb (lower arg) "full"); [apply P|].
    apply try_except_ValueError_ext.
    + intros out1.
      repeat (apply io_bind_ext; [|intros ?]; intros ?);
        first [apply P | reflexivity].
    + intros msg out1.
      repeat (apply io_bind_ext; [|intros ?]; intros ?); apply P.
Qed.

(** X3. The script fails through its standard output only. Whatever the
    arguments and whatever Python's [str.lower] and [repr] make of them, on
    a standard output that takes every piece of text the script ends with
    status 0 after printing between one and three items: the value error of
    an unknown name is caught, and no other error arises. With no argument
    after the script name it then prints the usage, the list of connection
    types and the hint about the full reference. On a standard output that
    refuses the full reference, the keyword full ends the script with
    status 1 and nothing printed, as line 225 is outside the [try]. A
    refusal of the boxed pinout is inside it: it is caught as a value error
    and reported in the error line, and the script ends with status 0 when
    the two lines of the handler are taken. *)
Theorem script_fails_on_output_only
  (stdout : stream) (lower repr : string -> string) (argv : list string) :
  ((forall piece, stdout piece = None) ->
   snd (run_script_with stdout lower repr argv) = 0%Z
   /\ 1 <= List.length (fst (run_script_with stdout lower repr argv)) <= 3
   /\ (List.length argv < 2 ->
       fst (run_script_with stdout lower repr argv)
       = [ "Usage: python pinout_generator.py <connection_type>";
           "Available connection types: uart, ftdi, direct, usb";
           PyStr.nl ++ "Or use 'full' for complete pin reference" ]))
  /\ (forall prog arg rest msg,
        argv = prog :: arg :: rest ->
        lower arg = "full" ->
        stdout (generate_full_pinout_reference __init__) = Some msg ->
        run_script_with stdout lower repr argv = ([], 1%Z))
  /\ (forall prog arg rest k pinout msg,
        argv = prog :: arg :: rest ->
        lower arg = value k ->
        generate_ascii_pinout __init__ (VKind k) 60 = Ok pinout ->
        stdout pinout = Some msg ->
        stdout ("Fehler: " ++ msg) = None ->
        stdout "Verfügbare Verbindungstypen:" = None ->
        stdout " " = None ->
        stdout "uart, ftdi, direct, usb" = None ->
        stdout PyStr.nl = None ->
        run_script_with stdout lower repr argv
        = ([ "Fehler: " ++ msg;
             "Verfügbare Verbindungstypen: uart, ftdi, direct, usb" ], 0%Z)).
Proof.
  split; [|split].
  - intros H.
    assert (E : run_script_with stdout lower repr argv
                = run_script_with accepting lower repr argv).
    { unfold run_script_with.
      now rewrite (main_accepted stdout lower repr argv [] H). }
    rewrite E. clear E H stdout.
    destruct argv as [|prog [|arg rest]].
    + vm_compute. repeat split; lia.
    + vm_compute. repeat split; lia.
    + unfold run_script_with, main_with.
      destruct (String.eqb (lower arg) "full").
      * vm_compute. repeat split; lia.
      * unfold try_except_ValueError, io_bind, lift,
          ConnectionType_of_value_with.
        cbn [find ConnectionType_members].
        destruct (String.eqb (value UART) (lower arg));
          [vm_compute; repeat split; lia|].
        destruct (String.eqb (value FTDI) (lower arg));
          [vm_compute; repeat split; lia|].
        destruct (String.eqb (value DIRECT) (lower arg));
          [vm_compute; repeat split; lia|].
        destruct (String.eqb (value USB) (lower arg));
          [vm_compute; repeat split; lia|].
        cbn. repeat split; lia.
  - intros prog arg rest msg -> full refused.
    unfold run_script_with, main_with. rewrite full. cbn [String.eqb].
    change (String.eqb "full" "full") with true. cbv iota.
    unfold print. cbn [pieces write_all]. now rewrite refused.
  - intros prog arg rest k pinout msg -> kind rendered refused
      error_line kinds blank listed line_end.
    unfold run_script_with, main_with. rewrite kind.
    replace (String.eqb (value k) "full") with false by now destruct k.
    unfold try_except_ValueError, io_bind, lift.
    replace (ConnectionType_of_value_with repr (value k)) with (Ok k)
      by now destruct k.
    rewrite rendered.
    unfold print. cbn [pieces write_all]. rewrite refused.
    rewrite error_line, line_end.
    cbn [pieces write_all]. rewrite kinds, blank.
    replace (PyStr.join ", " (list_available_connections __init__))
      with "uart, ftdi, direct, usb" by reflexivity.
    rewrite listed. reflexivity.
Qed.

(** A standard output that takes every text; and one that takes ASCII text
    only, as under [PYTHONIOENCODING=ascii]: the keyword full then fails. *)
Lemma script_fails_on_output_only_witness :
  let ascii_only : stream :=
    fun piece => if PyStr.is_ascii piece then None
                 else Some "ordinal not in range(128)" in
  fst (run_script_with accepting PyStr.lower PyStr.repr
         ["pinout_generator.py"])
  = [ "Usage: python pinout_generator.py <connection_type>";
      "Available connection types: uart, ftdi, direct, usb";
      PyStr.nl ++ "Or use 'full' for complete pin reference" ]
  /\ run_script_with ascii_only PyStr.lower PyStr.repr
       ["pinout_generator.py"; "full"] = ([], 1%Z).
Proof.
  intros ascii_only. split.
  - refine (proj2 (proj2 (proj1 (script_fails_on_output_only
                                   accepting PyStr.lower PyStr.repr
                                   ["pinout_generator.py"])
                            (fun piece => eq_refl))) _).
    simpl. lia.
  - exact (proj1 (proj2 (script_fails_on_output_only
                           ascii_only PyStr.lower PyStr.repr
                           ["pinout_generator.py"; "full"]))
             "pinout_generator.py" "full" [] "ordinal not in range(128)"
             eq_refl eq_refl eq_refl).
Defined.

(** * Numbers in rows *)

Lemma string_of_uint_chars (p : ascii -> bool) (d : Decimal.uint) :
  p "0"%char = false -> p "1"%char = false -> p "2"%char = false ->
  p "3"%char = false -> p "4"%char = false -> p "5"%char = false ->
  p "6"%char = false -> p "7"%char = false -> p "8"%char = false ->
  p "9"%char = false ->
  PyStr.any_char p (NilEmpty.string_of_uint d) = false.
Proof.
  intros H0 H1 H2 H3 H4 H5 H6 H7 H8 H9.
  induction d as [|d IH|d IH|d IH|d IH|d IH|d IH|d IH|d IH|d IH|d IH];
    cbn [NilEmpty.string_of_uint PyStr.any_char];
    rewrite ?H0, ?H1, ?H2, ?H3, ?H4, ?H5, ?H6, ?H7, ?H8, ?H9, ?IH;
    reflexivity.
Qed.

(** The decimal numeral of an integer is made of digits and a minus sign. *)
Lemma of_Z_chars (p : ascii -> bool) (n : Z) :
  p "-"%char = false ->
  p "0"%char = false -> p "1"%char = false -> p "2"%char = false ->
  p "3"%char = false -> p "4"%char = false -> p "5"%char = false ->
  p "6"%char = false -> p "7"%char = false -> p "8"%char = false ->
  p "9"%char = false ->
  PyStr.any_char p (PyStr.of_Z n) = false.
Proof.
  intros Hm H0 H1 H2 H3 H4 H5 H6 H7 H8 H9.
  assert (U : forall d, PyStr.any_char p (NilZero.string_of_uint d) = false).
  { intros d. destruct d; try (now apply string_of_uint_chars).
    cbn. now rewrite H0. }
  unfold PyStr.of_Z, NilZero.string_of_int.
  destruct (Z.to_int n) as [d|d]; [apply U|].
  cbn [PyStr.any_char]. now rewrite Hm, U.
Qed.

Lemma of_Z_reads_back (n : Z) :
  option_map Z.of_int (NilZero.int_of_string (PyStr.of_Z n)) = Some n.
Proof.
  unfold PyStr.of_Z. rewrite NilZero.isi.
  - cbn. now rewrite DecimalZ.of_to.
  - destruct n; cbn; try discriminate.
    intros [= E]. now apply DecimalPos.Unsigned.to_uint_nonnil in E.
  - destruct n; cbn; try discriminate.
    intros [= E]. now apply DecimalPos.Unsigned.to_uint_nonnil in E.
Qed.

Lemma any_char_spaces (p : ascii -> bool) (n : nat) :
  p " "%char = false -> PyStr.any_char p (PyStr.spaces n) = false.
Proof.
  intros H. apply any_char_replicate. cbn. now rewrite H.
Qed.

Lemma no_line_feed_spaces (n : nat) : Read.no_line_feed (PyStr.spaces n) = true.
Proof. now apply no_line_feed_replicate. Qed.

Lemma no_line_feed_ljust (w : nat) (s : string) :
  Read.no_line_feed s = true -> Read.no_line_feed (PyStr.ljust w s) = true.
Proof.
  intros H. unfold PyStr.ljust.
  now rewrite no_line_feed_append, H, no_line_feed_spaces.
Qed.

Lemma no_line_feed_of_Z (n : Z) : Read.no_line_feed (PyStr.of_Z n) = true.
Proof.
  unfold Read.no_line_feed. now rewrite of_Z_chars.
Qed.

Lemma no_line_feed_rjust_of_Z (w : nat) (n : Z) :
  Read.no_line_feed (PyStr.rjust w (PyStr.of_Z n)) = true.
Proof.
  unfold PyStr.rjust.
  now rewrite no_line_feed_append, no_line_feed_spaces, no_line_feed_of_Z.
Qed.

Lemma drop_length_append (a b : string) :
  Read.drop (String.length a) (a ++ b) = b.
Proof. induction a as [|c a IH]; [now destruct b | exact IH]. Qed.

Lemma split_once_char (c : ascii) (a b : string) :
  PyStr.any_char (Ascii.eqb c) a = false ->
  Read.split_once (String c "") (a ++ String c b) = Some (a, b).
Proof.
  induction a as [|x a IH]; intros H.
  - cbn. destruct (ascii_dec c c) as [_|ne]; [|now elim ne]. now destruct b.
  - cbn [PyStr.any_char] in H. apply orb_false_iff in H. destruct H as [Hx Ha].
    change (String x a ++ String c b) with (String x (a ++ String c b)).
    cbn [Read.split_once prefix].
    destruct (ascii_dec c x) as [->|_]; [now rewrite Ascii.eqb_refl in Hx|].
    now rewrite (IH Ha).
Qed.

Lemma read_lstrip_spaces (n : nat) (s : string) :
  Read.lstrip (PyStr.spaces n ++ s) = Read.lstrip s.
Proof. induction n as [|n IH]; [reflexivity | exact IH]. Qed.

Lemma read_lstrip_no_blank (s : string) :
  PyStr.any_char (Ascii.eqb " "%char) s = false -> Read.lstrip s = s.
Proof.
  destruct s as [|c s]; [reflexivity|]. cbn [PyStr.any_char Read.lstrip].
  intros H. apply orb_false_iff in H. destruct H as [Hc _].
  rewrite Ascii.eqb_sym in Hc. now rewrite Hc.
Qed.

(** A row of the full reference reads back to its pin number, whatever the
    number and the label. *)
Lemma reference_line_reads_back (n : Z) (d : string) :
  Read.pin_number_of_line (reference_line (n, d)) = Some n.
Proof.
  unfold Read.pin_number_of_line, reference_line.
  rewrite prefix_append, drop_length_append.
  change (": " ++ PyStr.ljust 46 d ++ " ║")
    with (String ":" (" " ++ PyStr.ljust 46 d ++ " ║")).
  unfold PyStr.rjust. rewrite append_assoc.
  rewrite <- (append_assoc (PyStr.spaces _) (PyStr.of_Z n)).
  rewrite split_once_char.
  - rewrite read_lstrip_spaces, read_lstrip_no_blank by now apply of_Z_chars.
    apply of_Z_reads_back.
  - rewrite any_char_append, any_char_spaces by reflexivity.
    now apply of_Z_chars.
Qed.

Lemma no_line_feed_reference_line (entry : Z * string) :
  Read.no_line_feed (snd entry) = true ->
  Read.no_line_feed (reference_line entry) = true.
Proof.
  destruct entry as [n d]. simpl snd. intros H. unfold reference_line.
  now rewrite !no_line_feed_append, no_line_feed_rjust_of_Z,
    no_line_feed_ljust.
Qed.

Lemma pin_numbers_of_rows (catalog : list (Z * string)) :
  Read.pin_numbers (map reference_line catalog) = map fst catalog.
Proof.
  unfold Read.pin_numbers, Read.filter_map.
  induction catalog as [|[n d] rest IH]; [reflexivity|].
  cbn [map flat_map fst]. rewrite reference_line_reads_back, IH. reflexivity.
Qed.

(** X8. For any catalog whose labels hold no line feed, the full reference
    has ten lines around one row per catalog entry, and the pin numbers read
    off its lines are the catalog's indices in catalog order: every entry is
    listed once, negative and many-digit indices included, and an empty
    catalog still gives the frame and the notes. *)
Theorem full_reference_reads_back (self : PinoutGenerator) :
  forallb (fun entry => Read.no_line_feed (snd entry)) (flipper_gpio_pins self)
  = true ->
  let lines := PyStr.split_lines (generate_full_pinout_reference self) in
  lines = reference self
  /\ List.length lines = 10 + List.length (flipper_gpio_pins self)
  /\ Read.pin_numbers lines = map fst (flipper_gpio_pins self).
Proof.
  intros H lines.
  assert (E : lines = reference self).
  { unfold lines, generate_full_pinout_reference.
    apply split_lines_join; [discriminate|].
    unfold reference. rewrite !forallb_app.
    apply andb_true_iff. split; [reflexivity|].
    apply andb_true_iff. split; [|reflexivity].
    apply forallb_forall. intros line Hin.
    apply in_map_iff in Hin. destruct Hin as (entry & <- & Hin).
    apply no_line_feed_reference_line.
    rewrite forallb_forall in H. now apply H. }
  rewrite E. split; [reflexivity|]. split.
  - unfold reference. rewrite !length_app, length_map. simpl. lia.
  - unfold reference, Read.pin_numbers, Read.filter_map.
    rewrite !flat_map_app.
    change (flat_map _ (map reference_line (flipper_gpio_pins self)))
      with (Read.pin_numbers (map reference_line (flipper_gpio_pins self))).
    rewrite pin_numbers_of_rows. vm_compute flat_map at 1.
    cbn [app]. now rewrite app_nil_r.
Qed.

Lemma full_reference_reads_back_witness :
  let self := {| flipper_gpio_pins :=
                   [(120%Z, "far"); ((-7)%Z, "below"); (0%Z, "zero")];
                 connection_configs := [] |} in
  let lines := PyStr.split_lines (generate_full_pinout_reference self) in
  lines = reference self
  /\ List.length lines = 13
  /\ Read.pin_numbers lines = [120%Z; (-7)%Z; 0%Z].
Proof.
  intros self.
  apply (full_reference_reads_back self). reflexivity.
Defined.

(** * Lines of a boxed pinout, for any profile *)

Lemma one_line_profile_lines (gpio : list (Z * string)) (cfg : config) :
  one_line_profile gpio cfg = true ->
  Read.no_line_feed (description cfg) = true
  /\ forallb Read.no_line_feed (map (pin_line gpio) (pins cfg)) = true
  /\ forallb Read.no_line_feed (info_lines cfg) = true.
Proof.
  unfold one_line_profile. intros H.
  apply andb_true_iff in H. destruct H as [H Hopt].
  apply andb_true_iff in H. destruct H as [Hd Hpins].
  split; [exact Hd|]. split.
  - apply forallb_forall. intros line Hin.
    apply in_map_iff in Hin. destruct Hin as (entry & <- & Hin).
    rewrite forallb_forall in Hpins. specialize (Hpins entry Hin).
    apply andb_true_iff in Hpins. destruct Hpins as [Hrole Href].
    destruct entry as [[n|nm] role]; simpl in Hrole, Href.
    + rewrite pin_line_int.
      now rewrite !no_line_feed_append, no_line_feed_rjust_of_Z,
        !no_line_feed_ljust.
    + rewrite pin_line_name.
      now rewrite !no_line_feed_append, Href, no_line_feed_ljust.
  - unfold info_lines. cbn [forallb] in Hopt.
    destruct (baudrate cfg), (voltage cfg), (protocol cfg), (note cfg);
      cbn [opt_line app forallb];
      repeat match goal with
             | H : _ && _ = true |- _ =>
                 apply andb_true_iff in H; destruct H
             end;
      rewrite ?no_line_feed_append, ?no_line_feed_ljust by assumption;
      reflexivity.
Qed.

Lemma populated_info_lines (cfg : config) :
  List.length (info_lines cfg) = populated cfg.
Proof.
  unfold info_lines, populated.
  now destruct (baudrate cfg), (voltage cfg), (protocol cfg), (note cfg).
Qed.

Lemma info_lines_show (cfg : config) (v : string) :
  In (Some v) [baudrate cfg; voltage cfg; protocol cfg; note cfg] ->
  exists line, In line (info_lines cfg) /\ PyStr.contains v line = true.
Proof.
  unfold info_lines. intros [E|[E|[E|[E|[]]]]].
  - exists ("║ Baudrate: " ++ PyStr.ljust 46 v ++ " ║"). split; [|shown].
    rewrite E. now left.
  - exists ("║ Spannung: " ++ PyStr.ljust 46 v ++ " ║"). split; [|shown].
    rewrite E. apply in_or_app. right. now left.
  - exists ("║ Protokoll: " ++ PyStr.ljust 45 v ++ " ║"). split; [|shown].
    rewrite E. apply in_or_app. right. apply in_or_app. right. now left.
  - exists ("║ Hinweis: " ++ PyStr.ljust 47 v ++ " ║"). split; [|shown].
    rewrite E. apply in_or_app. right. apply in_or_app. right.
    apply in_or_app. right. now left.
Qed.

(** X6. For any generator and configured kind, at a width that is not
    negative and with a profile whose strings hold no line feed, the boxed
    pinout has 16 lines of frame, header art and headings, one line per
    profile entry and one line per optional key the profile carries; it ends
    with the bottom border, and every optional value the profile carries
    occurs in it. A profile without pins and without optional keys still
    gives the 16 lines. *)
Theorem boxed_pinout_line_count
  (self : PinoutGenerator) (k : ConnectionType) (cfg : config) (width : Z) :
  dict_get ConnectionType_eqb (connection_configs self) k = Some cfg ->
  (0 <= width)%Z ->
  one_line_profile (flipper_gpio_pins self) cfg = true ->
  exists text,
    generate_ascii_pinout self (VKind k) width = Ok text
    /\ List.length (PyStr.split_lines text)
       = 16 + List.length (pins cfg) + populated cfg
    /\ last (PyStr.split_lines text) "" = "╚" ++ separator width ++ "╝"
    /\ (forall v,
          In (Some v) [baudrate cfg; voltage cfg; protocol cfg; note cfg] ->
          PyStr.contains v text = true).
Proof.
  intros known Hw Hone.
  destruct (one_line_profile_lines _ _ Hone) as (Hd & Hrows & Hinfo).
  destruct (boxed_pinout_lines self k cfg width known Hw Hd Hrows Hinfo)
    as (Etext & Elines).
  eexists. split; [exact Etext|]. rewrite Elines. split; [|split].
  - rewrite ascii_art_length, populated_info_lines. reflexivity.
  - unfold ascii_art. rewrite !app_assoc. apply last_last.
  - intros v Hin. destruct (info_lines_show cfg v Hin) as (line & Hline & Hv).
    apply contains_join with (x := line); [|exact Hv].
    unfold ascii_art. do 6 (apply in_or_app; right).
    apply in_or_app. left. exact Hline.
Qed.

(** A profile with nothing in it. *)
Lemma boxed_pinout_line_count_witness :
  let bare := {| pins := []; description := "";
                 baudrate := None; voltage := None;
                 protocol := None; note := None |} in
  let self := {| flipper_gpio_pins := [];
                 connection_configs := [(USB, bare)] |} in
  exists text,
    generate_ascii_pinout self (VKind USB) 0 = Ok text
    /\ List.length (PyStr.split_lines text) = 16
    /\ last (PyStr.split_lines text) "" = "╚╝"
    /\ (forall v, In (Some v) [None; None; None; None] ->
        PyStr.contains v text = true).
Proof.
  intros bare self.
  apply (boxed_pinout_line_count self USB bare 0 eq_refl);
    [lia | reflexivity].
Defined.

(** * The interactive agent *)

Lemma command_debug (self : Agent.FlipperDIYAgent) (cmd : string) :
  Agent.debug (fst (Agent.command self cmd)) = Agent.debug self.
Proof.
  unfold Agent.command, Agent.connect, Agent.disconnect,
    Agent.detect_connection_type.
  repeat match goal with
         | |- context [String.eqb ?a ?b] => destruct (String.eqb a b)
         | |- context [Agent.connected self] => destruct (Agent.connected self)
         end; reflexivity.
Qed.

Lemma loop_debug (normalise : string -> string)
  (stdin : list Agent.input) (self : Agent.FlipperDIYAgent) :
  Agent.debug (fst (fst (Agent.loop_with normalise self stdin)))
  = Agent.debug self.
Proof.
  revert self. induction stdin as [|[text|] rest IH]; intros self;
    cbn [Agent.loop_with]; try reflexivity.
  destruct (Agent.leaves _); [reflexivity|].
  pose proof (command_debug self (normalise text)) as Hc.
  destruct (Agent.command self _) as [self1 out1].
  pose proof (IH self1) as Hl.
  destruct (Agent.loop_with normalise self1 rest) as [[self2 out2] unread].
  simpl in *. congruence.
Qed.

Lemma loop_unread (normalise : string -> string)
  (stdin : list Agent.input) (self : Agent.FlipperDIYAgent) :
  exists read,
    stdin = (read ++ snd (Agent.loop_with normalise self stdin))%list.
Proof.
  revert self. induction stdin as [|[text|] rest IH]; intros self;
    cbn [Agent.loop_with].
  - now exists [].
  - destruct (Agent.leaves _); [now exists [Agent.Line text]|].
    destruct (Agent.command self _) as [self1 out1].
    destruct (IH self1) as [read E].
    destruct (Agent.loop_with normalise self1 rest) as [[self2 out2] unread].
    exists (Agent.Line text :: read). simpl in *. now f_equal.
  - now exists [Agent.Interrupt].
Qed.

(** X12. However the command loop is left (an exit command, an interrupt,
    the end of the input) and whatever was typed before, the interactive
    mode hands the agent back disconnected with its debug flag untouched,
    shows the banner first and the farewell last, and what it leaves unread
    is a tail of the input. *)
Theorem interactive_mode_ends_disconnected
  (self : Agent.FlipperDIYAgent) (stdin : list Agent.input) :
  let '(after, out, unread) := Agent.run_interactive_mode self stdin in
  Agent.connected after = false
  /\ Agent.debug after = Agent.debug self
  /\ firstn 10 out = Agent.banner
  /\ last out (Agent.Prompt "") = Agent.Print "Auf Wiedersehen!"
  /\ exists read, stdin = (read ++ unread)%list.
Proof.
  unfold Agent.run_interactive_mode, Agent.run_interactive_mode_with.
  pose proof (loop_debug Agent.normalise stdin self) as Hd.
  pose proof (loop_unread Agent.normalise stdin self) as Hu.
  destruct (Agent.loop_with Agent.normalise self stdin)
    as [[self1 out1] unread].
  simpl in Hd, Hu.
  unfold Agent.disconnect.
  destruct (Agent.connected self1) eqn:C; cbn [Agent.set_connected].
  - repeat split; try assumption.
    rewrite !app_assoc. apply last_last.
  - repeat split; try assumption.
    rewrite !app_assoc. apply last_last.
Qed.

Lemma command_never_connects (self : Agent.FlipperDIYAgent) (cmd : string) :
  Agent.connection_type self = "auto" \/ Agent.connection_type self = "none" ->
  Agent.connected self = false ->
  let (self1, out) := Agent.command self cmd in
  (Agent.connection_type self1 = "auto"
   \/ Agent.connection_type self1 = "none")
  /\ Agent.connected self1 = false
  /\ forallb (fun e => negb (Agent.reports_connection e)) out = true.
Proof.
  destruct self as [t d c]. simpl. intros Ht ->.
  unfold Agent.command, Agent.connect, Agent.disconnect,
    Agent.detect_connection_type. simpl.
  repeat match goal with
         | |- context [String.eqb cmd ?b] => destruct (String.eqb cmd b)
         end;
    try (repeat split; [exact Ht | reflexivity]).
  all: destruct Ht as [-> | ->]; simpl; repeat split; auto.
Qed.

Lemma loop_never_connects (normalise : string -> string)
  (stdin : list Agent.input) (self : Agent.FlipperDIYAgent) :
  Agent.connection_type self = "auto" \/ Agent.connection_type self = "none" ->
  Agent.connected self = false ->
  let '(self1, out, _) := Agent.loop_with normalise self stdin in
  (Agent.connection_type self1 = "auto"
   \/ Agent.connection_type self1 = "none")
  /\ Agent.connected self1 = false
  /\ forallb (fun e => negb (Agent.reports_connection e)) out = true.
Proof.
  revert self. induction stdin as [|[text|] rest IH]; intros self Ht Hc;
    cbn [Agent.loop_with]; try (repeat split; assumption).
  destruct (Agent.leaves _); [repeat split; assumption|].
  pose proof (command_never_connects self (normalise text) Ht Hc) as H1.
  destruct (Agent.command self _) as [self1 out1].
  destruct H1 as (Ht1 & Hc1 & Ho1).
  pose proof (IH self1 Ht1 Hc1) as H2.
  destruct (Agent.loop_with normalise self1 rest) as [[self2 out2] unread].
  destruct H2 as (Ht2 & Hc2 & Ho2).
  repeat split; try assumption.
  cbn [forallb Agent.reports_connection negb andb].
  now rewrite forallb_app, Ho1, Ho2.
Qed.

(** X13. An agent whose connection type is auto (the default) or none and
    which is not connected never gets connected in the interactive mode:
    detection always answers none, so whatever is typed, no success message
    is printed or logged, no status line says connected, and the agent ends
    with type auto or none. *)
Theorem auto_agent_never_connects
  (self : Agent.FlipperDIYAgent) (stdin : list Agent.input) :
  Agent.connection_type self = "auto" \/ Agent.connection_type self = "none" ->
  Agent.connected self = false ->
  let '(after, out, _) := Agent.run_interactive_mode self stdin in
  forallb (fun e => negb (Agent.reports_connection e)) out = true
  /\ (Agent.connection_type after = "auto"
      \/ Agent.connection_type after = "none").
Proof.
  intros Ht Hc.
  unfold Agent.run_interactive_mode, Agent.run_interactive_mode_with.
  pose proof (loop_never_connects Agent.normalise stdin self Ht Hc) as H.
  destruct (Agent.loop_with Agent.normalise self stdin)
    as [[self1 out1] unread].
  destruct H as (Ht1 & Hc1 & Ho1).
  unfold Agent.disconnect. rewrite Hc1. split; [|exact Ht1].
  rewrite !forallb_app, Ho1. reflexivity.
Qed.

Lemma auto_agent_never_connects_witness :
  let '(after, out, _) :=
    Agent.run_interactive_mode (fst (Agent.__init__ "auto" false))
      [Agent.Line "connect"; Agent.Line "status"; Agent.Line "connect"] in
  forallb (fun e => negb (Agent.reports_connection e)) out = true
  /\ (Agent.connection_type after = "auto"
      \/ Agent.connection_type after = "none").
Proof.
  apply (auto_agent_never_connects (fst (Agent.__init__ "auto" false))
           [Agent.Line "connect"; Agent.Line "status"; Agent.Line "connect"]).
  - left. reflexivity.
  - reflexivity.
Defined.

Lemma command_connection_type (self : Agent.FlipperDIYAgent) (cmd : string) :
  let self1 := fst (Agent.command self cmd) in
  Agent.connection_type self1 = Agent.connection_type self
  \/ (Agent.connection_type self = "auto"
      /\ Agent.connection_type self1 = "none").
Proof.
  destruct self as [t d c].
  unfold Agent.command, Agent.connect, Agent.disconnect,
    Agent.detect_connection_type. simpl.
  repeat match goal with
         | |- context [String.eqb cmd ?b] => destruct (String.eqb cmd b)
         end; try (left; reflexivity).
  - destruct (String.eqb_spec t "auto") as [->|_]; simpl.
    + right. now split.
    + destruct (String.eqb t "none"); left; reflexivity.
  - destruct c; left; reflexivity.
Qed.

(** X14. The interactive mode changes the connection type of an agent in
    one way only: from auto to none, when a connect command runs the
    detection. A type chosen explicitly is never replaced, and the success
    of a connect command never writes the type back. *)
Theorem connection_type_changes_from_auto_only
  (self : Agent.FlipperDIYAgent) (stdin : list Agent.input) :
  let after := fst (fst (Agent.run_interactive_mode self stdin)) in
  Agent.connection_type after = Agent.connection_type self
  \/ (Agent.connection_type self = "auto"
      /\ Agent.connection_type after = "none").
Proof.
  assert (L : forall stdin self,
            let after :=
              fst (fst (Agent.loop_with Agent.normalise self stdin)) in
            Agent.connection_type after = Agent.connection_type self
            \/ (Agent.connection_type self = "auto"
                /\ Agent.connection_type after = "none")).
  { clear. intros stdin. induction stdin as [|[text|] rest IH]; intros self;
      cbn [Agent.loop_with]; try (left; reflexivity).
    destruct (Agent.leaves _); [left; reflexivity|].
    pose proof (command_connection_type self (Agent.normalise text)) as H1.
    destruct (Agent.command self _) as [self1 out1]. simpl in H1.
    pose proof (IH self1) as H2.
    destruct (Agent.loop_with Agent.normalise self1 rest)
      as [[self2 out2] unread].
    simpl in *.
    destruct H1 as [E1|[Ea E1]], H2 as [E2|[Eb E2]].
    - left. congruence.
    - right. split; congruence.
    - right. split; congruence.
    - rewrite E1 in Eb. discriminate Eb. }
  simpl. unfold Agent.run_interactive_mode, Agent.run_interactive_mode_with.
  pose proof (L stdin self) as H.
  destruct (Agent.loop_with Agent.normalise self stdin)
    as [[self1 out1] unread].
  simpl in H.
  unfold Agent.disconnect. destruct (Agent.connected self1); exact H.
Qed.

(** X15. Nothing is read after a line that Python's [.strip().lower()]
    turns into exit, quit or q: the lines that follow it change neither the
    agent nor what is written, and they are all left unread. *)
Theorem nothing_is_read_after_exit
  (normalise : string -> string)
  (self : Agent.FlipperDIYAgent) (before after : list Agent.input)
  (word : string) :
  Agent.leaves (normalise word) = true ->
  let '(agent1, out1, unread1) :=
    Agent.run_interactive_mode_with normalise self
      (before ++ [Agent.Line word]) in
  Agent.run_interactive_mode_with normalise self
    (before ++ Agent.Line word :: after)
  = (agent1, out1, (unread1 ++ after)%list).
Proof.
  intros Hexit.
  assert (L : forall before self,
            let '(a1, o1, u1) :=
              Agent.loop_with normalise self (before ++ [Agent.Line word]) in
            Agent.loop_with normalise self (before ++ Agent.Line word :: after)
            = (a1, o1, (u1 ++ after)%list)).
  { clear self before. intros before.
    induction before as [|[text|] rest IH]; intros self;
      cbn [app Agent.loop_with].
    - now rewrite Hexit.
    - destruct (Agent.leaves (normalise text)).
      + f_equal. now rewrite <- app_assoc.
      + destruct (Agent.command self _) as [self1 o].
        pose proof (IH self1) as H.
        destruct (Agent.loop_with normalise self1
                    (rest ++ [Agent.Line word])) as [[a1 o1] u1].
        now rewrite H.
    - f_equal. now rewrite <- app_assoc. }
  unfold Agent.run_interactive_mode_with.
  pose proof (L before self) as H.
  destruct (Agent.loop_with normalise self (before ++ [Agent.Line word]))
    as [[a1 o1] u1].
  rewrite H. destruct (Agent.disconnect a1). reflexivity.
Qed.

Lemma nothing_is_read_after_exit_witness :
  let '(agent1, out1, unread1) :=
    Agent.run_interactive_mode_with Agent.normalise
      (fst (Agent.__init__ "usb" false))
      ([Agent.Line "connect"] ++ [Agent.Line " QUIT "]) in
  Agent.run_interactive_mode_with Agent.normalise
    (fst (Agent.__init__ "usb" false))
    ([Agent.Line "connect"] ++ Agent.Line " QUIT " :: [Agent.Line "status"])
  = (agent1, out1, (unread1 ++ [Agent.Line "status"])%list).
Proof.
  apply (nothing_is_read_after_exit Agent.normalise
           (fst (Agent.__init__ "usb" false))
           [Agent.Line "connect"] [Agent.Line "status"] " QUIT ").
  reflexivity.
Defined.

(** * Commands with blanks and capitals *)

Lemma blank_String (c : ascii) (s : string) :
  Agent.blank (String c s) = true ->
  Agent.is_space c = true /\ Agent.blank s = true.
Proof.
  unfold Agent.blank. cbn [PyStr.any_char]. intros H.
  apply negb_true_iff, orb_false_iff in H. destruct H as [Hc Hs].
  apply negb_false_iff in Hc. now rewrite Hs.
Qed.

Lemma lstrip_blank (pad s : string) :
  Agent.blank pad = true -> Agent.lstrip (pad ++ s) = Agent.lstrip s.
Proof.
  induction pad as [|c pad IH]; intros H; [reflexivity|].
  apply blank_String in H. destruct H as [Hc Hp].
  change (String c pad ++ s) with (String c (pad ++ s)).
  cbn [Agent.lstrip]. rewrite Hc. now apply IH.
Qed.

Lemma rstrip_of_blank (pad : string) :
  Agent.blank pad = true -> Agent.rstrip pad = "".
Proof.
  induction pad as [|c pad IH]; intros H; [reflexivity|].
  apply blank_String in H. destruct H as [Hc Hp].
  cbn [Agent.rstrip]. now rewrite (IH Hp), Hc.
Qed.

Lemma rstrip_blank (s pad : string) :
  Agent.blank pad = true -> Agent.rstrip (s ++ pad) = Agent.rstrip s.
Proof.
  intros H. induction s as [|c s IH].
  - simpl. now apply rstrip_of_blank.
  - change (String c s ++ pad) with (String c (s ++ pad)).
    cbn [Agent.rstrip]. now rewrite IH.
Qed.

Lemma rstrip_solid (s : string) :
  PyStr.any_char Agent.is_space s = false -> Agent.rstrip s = s.
Proof.
  induction s as [|c s IH]; intros H; [reflexivity|].
  cbn [PyStr.any_char] in H. apply orb_false_iff in H. destruct H as [Hc Hs].
  cbn [Agent.rstrip]. rewrite (IH Hs), Hc. now destruct s.
Qed.

Lemma strip_solid (s : string) :
  PyStr.any_char Agent.is_space s = false -> Agent.strip s = s.
Proof.
  intros H. unfold Agent.strip.
  assert (L : Agent.lstrip s = s).
  { destruct s as [|c s]; [reflexivity|].
    cbn [PyStr.any_char] in H. apply orb_false_iff in H.
    cbn [Agent.lstrip]. now rewrite (proj1 H). }
  rewrite L. now apply rstrip_solid.
Qed.

Lemma case_variant_char_solid (x y : ascii) :
  Agent.is_space y = false ->
  (Ascii.eqb x y || Ascii.eqb x (PyStr.upper_char y)
   || Ascii.eqb x (PyStr.lower_char y)) = true ->
  Agent.is_space x = false.
Proof.
  intros Hy H.
  apply orb_true_iff in H. destruct H as [H|H];
    [apply orb_true_iff in H; destruct H as [H|H]|];
    apply Ascii.eqb_eq in H; subst x; [exact Hy| |];
    revert Hy; destruct y as [[] [] [] [] [] [] [] []];
    vm_compute; intros Hy; first [reflexivity | discriminate Hy].
Qed.

Lemma case_variant_solid (a b : string) :
  Read.case_variant a b = true ->
  PyStr.any_char Agent.is_space b = false ->
  PyStr.any_char Agent.is_space a = false.
Proof.
  revert b; induction a as [|x a IH]; intros [|y b] H Hb;
    try discriminate H; [reflexivity|].
  cbn [Read.case_variant] in H. apply andb_true_iff in H.
  destruct H as [Hc Hs].
  cbn [PyStr.any_char] in Hb |- *. apply orb_false_iff in Hb.
  destruct Hb as [Hy Hb].
  now rewrite (case_variant_char_solid x y Hy Hc), (IH b Hs Hb).
Qed.

(** X16. A command is recognised whatever white space surrounds it and
    whatever the case of its letters: a line made of white space, a spelling
    of a word without white space in mixed case, and white space again is
    treated by the loop as that word in lower case. *)
Theorem commands_ignore_blanks_and_case
  (self : Agent.FlipperDIYAgent) (pad1 word pad2 cmd : string)
  (rest : list Agent.input) :
  Agent.blank pad1 = true ->
  Agent.blank pad2 = true ->
  Read.case_variant word cmd = true ->
  PyStr.any_char Agent.is_space cmd = false ->
  PyStr.lower (Agent.strip (pad1 ++ word ++ pad2)) = PyStr.lower cmd
  /\ Agent.loop self (Agent.Line (pad1 ++ word ++ pad2) :: rest)
     = Agent.loop self (Agent.Line (PyStr.lower cmd) :: rest).
Proof.
  intros H1 H2 Hv Hs.
  assert (E : PyStr.lower (Agent.strip (pad1 ++ word ++ pad2))
              = PyStr.lower cmd).
  { unfold Agent.strip. rewrite lstrip_blank by exact H1.
    pose proof (case_variant_solid word cmd Hv Hs) as Hw.
    assert (L : Agent.lstrip (word ++ pad2) = word ++ pad2
                \/ word = "").
    { destruct word as [|c w]; [now right|]. left.
      cbn [PyStr.any_char] in Hw. apply orb_false_iff in Hw.
      change (String c w ++ pad2) with (String c (w ++ pad2)).
      cbn [Agent.lstrip]. now rewrite (proj1 Hw). }
    destruct L as [L| ->].
    - rewrite L, rstrip_blank, rstrip_solid by assumption.
      now apply case_variant_lower.
    - destruct cmd; [|discriminate Hv].
      change ("" ++ pad2) with pad2.
      assert (B : Agent.lstrip pad2 = "").
      { clear - H2. induction pad2 as [|c p IH]; [reflexivity|].
        apply blank_String in H2. destruct H2 as [Hc Hp].
        cbn [Agent.lstrip]. rewrite Hc. now apply IH. }
      now rewrite B. }
  split; [exact E|].
  assert (E2 : PyStr.lower (Agent.strip (PyStr.lower cmd)) = PyStr.lower cmd).
  { assert (V : Read.case_variant (PyStr.lower cmd) cmd = true).
    { clear. induction cmd as [|c s IH]; [reflexivity|].
      unfold PyStr.lower. cbn [PyStr.map_chars Read.case_variant].
      rewrite Ascii.eqb_refl, orb_true_r. exact IH. }
    rewrite strip_solid by now apply (case_variant_solid _ cmd).
    now apply case_variant_lower. }
  unfold Agent.loop, Agent.normalise. cbn [Agent.loop_with].
  now rewrite E, E2.
Qed.

Lemma commands_ignore_blanks_and_case_witness :
  PyStr.lower (Agent.strip ("  " ++ "StaTus" ++ " ")) = PyStr.lower "status"
  /\ Agent.loop (fst (Agent.__init__ "ftdi" false))
       (Agent.Line ("  " ++ "StaTus" ++ " ") :: [])
     = Agent.loop (fst (Agent.__init__ "ftdi" false))
         (Agent.Line (PyStr.lower "status") :: []).
Proof.
  apply (commands_ignore_blanks_and_case
           (fst (Agent.__init__ "ftdi" false)) "  " "StaTus" " " "status" []);
    reflexivity.
Defined.

(** * Connecting and disconnecting *)

(** X17. With a connection type other than auto and none, whatever the
    string, [connect] reports success, marks the agent connected and keeps
    its type, also when the agent was connected already; a [disconnect]
    after it gives the agent back disconnected and otherwise unchanged, and
    a second [disconnect] changes nothing and logs nothing. *)
Theorem connect_then_disconnect (self : Agent.FlipperDIYAgent) :
  Agent.connection_type self <> "auto" ->
  Agent.connection_type self <> "none" ->
  let '(ok, self1, out1) := Agent.connect self in
  let (self2, out2) := Agent.disconnect self1 in
  ok = true
  /\ self1 = Agent.set_connected self true
  /\ out1 = [ Agent.Log Agent.INFO
                ("Stelle Verbindung her über: " ++ Agent.connection_type self);
              Agent.Log Agent.INFO "Verbindung erfolgreich hergestellt" ]
  /\ self2 = Agent.set_connected self false
  /\ out2 = [ Agent.Log Agent.INFO "Trenne Verbindung...";
              Agent.Log Agent.INFO "Verbindung getrennt" ]
  /\ Agent.disconnect self2 = (self2, []).
Proof.
  intros Ha Hn. unfold Agent.connect.
  destruct (String.eqb_spec (Agent.connection_type self) "auto") as [E|_];
    [contradiction|].
  destruct (String.eqb_spec (Agent.connection_type self) "none") as [E|_];
    [contradiction|].
  cbn. repeat split.
Qed.

(** A type the argument parser would not let through connects all the
    same. *)
Lemma connect_then_disconnect_witness :
  let self := fst (Agent.__init__ "xyz" false) in
  let '(ok, self1, out1) := Agent.connect self in
  let (self2, out2) := Agent.disconnect self1 in
  ok = true
  /\ self1 = Agent.set_connected self true
  /\ out1 = [ Agent.Log Agent.INFO "Stelle Verbindung her über: xyz";
              Agent.Log Agent.INFO "Verbindung erfolgreich hergestellt" ]
  /\ self2 = Agent.set_connected self false
  /\ out2 = [ Agent.Log Agent.INFO "Trenne Verbindung...";
              Agent.Log Agent.INFO "Verbindung getrennt" ]
  /\ Agent.disconnect self2 = (self2, []).
Proof.
  intros self.
  apply (connect_then_disconnect self); discriminate.
Defined.

(** * Wiring diagrams of every kind *)

(** X10. The wiring diagram of a kind is the same text for every generator
    that configures the kind, whatever its catalog and profiles hold. Read
    line by line it is an empty line, the title with the kind in capitals, a
    rule of fifty equals signs, then lines that each carry the arrow, an
    empty line and a closing note without arrow. *)
Theorem wiring_diagram_skeleton
  (self : PinoutGenerator) (k : ConnectionType) (cfg : config) :
  dict_get ConnectionType_eqb (connection_configs self) k = Some cfg ->
  exists text wires closing,
    generate_connection_diagram self (VKind k) = Ok text
    /\ generate_connection_diagram __init__ (VKind k) = Ok text
    /\ PyStr.split_lines text
       = "" :: (name k ++ " Verbindungsdiagramm:")%string
            :: PyStr.replicate 50 "=" :: (wires ++ [""; closing])%list
    /\ 4 <= List.length wires
    /\ forallb (PyStr.contains "←→") wires = true
    /\ PyStr.contains "←→" closing = false
    /\ closing <> "".
Proof.
  intros known. unfold generate_connection_diagram, configs_get.
  rewrite known.
  destruct k.
  - eexists _, [_; _; _; _; _], _. split; [reflexivity|].
    repeat split; try (vm_compute; reflexivity); try discriminate.
    vm_compute. lia.
  - eexists _, [_; _; _; _; _], _. split; [reflexivity|].
    repeat split; try (vm_compute; reflexivity); try discriminate.
    vm_compute. lia.
  - eexists _, [_; _; _; _; _; _], _. split; [reflexivity|].
    repeat split; try (vm_compute; reflexivity); try discriminate.
    vm_compute. lia.
  - eexists _, [_; _; _; _; _], _. split; [reflexivity|].
    repeat split; try (vm_compute; reflexivity); try discriminate.
    vm_compute. lia.
Qed.

Lemma wiring_diagram_skeleton_witness :
  exists text wires closing,
    generate_connection_diagram
      {| flipper_gpio_pins := [];
         connection_configs :=
           [(DIRECT, {| pins := []; description := "";
                        baudrate := None; voltage := None;
                        protocol := None; note := None |})] |}
      (VKind DIRECT) = Ok text
    /\ generate_connection_diagram __init__ (VKind DIRECT) = Ok text
    /\ PyStr.split_lines text
       = "" :: "DIRECT Verbindungsdiagramm:"
            :: PyStr.replicate 50 "=" :: (wires ++ [""; closing])%list
    /\ 4 <= List.length wires
    /\ forallb (PyStr.contains "←→") wires = true
    /\ PyStr.contains "←→" closing = false
    /\ closing <> "".
Proof.
  apply (wiring_diagram_skeleton
           {| flipper_gpio_pins := [];
              connection_configs :=
                [(DIRECT, {| pins := []; description := "";
                             baudrate := None; voltage := None;
                             protocol := None; note := None |})] |}
           DIRECT _ eq_refl).
Defined.

(** * Lookup and listing *)

Lemma dict_get_In (d : list (Z * string)) (n : Z) (v : string) :
  dict_get Z.eqb d n = Some v -> In (n, v) d.
Proof.
  induction d as [|[k x] d IH]; [discriminate|].
  cbn [dict_get]. destruct (Z.eqb_spec k n) as [->|_].
  - intros [= ->]. now left.
  - intros H. right. now apply IH.
Qed.

Lemma In_dict_get (d : list (Z * string)) (n : Z) (v : string) :
  NoDup (map fst d) -> In (n, v) d -> dict_get Z.eqb d n = Some v.
Proof.
  induction d as [|[k x] d IH]; [contradiction|].
  cbn [map fst dict_get]. intros Hnd Hin. inversion Hnd as [|? ? Hk Hd]; subst.
  destruct Hin as [[= -> ->]|Hin].
  - now rewrite Z.eqb_refl.
  - destruct (Z.eqb_spec k n) as [->|_]; [|now apply IH].
    elim Hk. change n with (fst (n, v)). now apply in_map.
Qed.

Lemma dict_get_None (d : list (Z * string)) (n : Z) :
  dict_get Z.eqb d n = None <-> ~ In n (map fst d).
Proof.
  induction d as [|[k x] d IH]; [now split|].
  cbn [dict_get map fst In]. destruct (Z.eqb_spec k n) as [->|ne].
  - split; [discriminate | intros H; elim H; now left].
  - rewrite IH. tauto.
Qed.

(** X11. For any catalog with one entry per index, as a dictionary has it,
    [get_pin_info] and the full reference agree: the lookup of an index
    returns a label exactly when the catalog pairs the index with that
    label, the reference then has the row of that pair and contains the
    label, and the lookup returns nothing exactly when the index is no key
    of the catalog. *)
Theorem lookup_agrees_with_reference (self : PinoutGenerator) (n : Z) :
  NoDup (map fst (flipper_gpio_pins self)) ->
  (forall d, In (n, d) (flipper_gpio_pins self)
             <-> get_pin_info self n = Some d)
  /\ (get_pin_info self n = None
      <-> ~ In n (map fst (flipper_gpio_pins self)))
  /\ (forall d, get_pin_info self n = Some d ->
        In (reference_line (n, d)) (reference self)
        /\ PyStr.contains d (generate_full_pinout_reference self) = true).
Proof.
  intros Hnd. unfold get_pin_info. split; [|split].
  - intros d. split; [now apply In_dict_get | apply dict_get_In].
  - apply dict_get_None.
  - intros d H. apply dict_get_In in H.
    assert (Hrow : In (reference_line (n, d)) (reference self)).
    { unfold reference. apply in_or_app. right. apply in_or_app. left.
      now apply in_map. }
    split; [exact Hrow|].
    unfold generate_full_pinout_reference.
    apply contains_join with (x := reference_line (n, d)); [exact Hrow|].
    unfold reference_line. shown.
Qed.

Lemma lookup_agrees_with_reference_witness :
  (forall d, In (7%Z, d) (flipper_gpio_pins __init__)
             <-> get_pin_info __init__ 7 = Some d)
  /\ (get_pin_info __init__ 7 = None
      <-> ~ In 7%Z (map fst (flipper_gpio_pins __init__)))
  /\ (forall d, get_pin_info __init__ 7 = Some d ->
        In (reference_line (7%Z, d)) (reference __init__)
        /\ PyStr.contains d (generate_full_pinout_reference __init__) = true).
Proof.
  apply (lookup_agrees_with_reference __init__ 7).
  repeat (constructor; [simpl; intuition discriminate|]). constructor.
Defined.
